(** * Delhi District Courts cause-list downloader: a model of [apps.py]

    The script scrapes the cause-list page of the Delhi district courts for
    PDF anchors, filters them by court complex, and downloads every match
    into the directory [downloaded_pdfs].

    Modelling choices.
    - A Python [str] is a list of Unicode code points ([N]); [bytes] is a list
      of [Byte.byte].
    - The Unicode character database of the interpreter is not part of the
      script.  For code points below 128 the classes are written out as
      CPython has them; for the others they are read from a [UnicodeData]
      table the definitions are parameterised over.
    - The network, BeautifulSoup's HTML parser and the outcome of writing a
      file are an [Environment] the definitions are parameterised over.  The process
      state threaded through the functions is the log of HTTP requests sent
      and the contents of the disk.
    - Streamlit calls ([st.info], [st.progress], ...) only display text and
      are left out. *)

From Stdlib Require Import Strings.String Strings.Ascii Strings.Byte.
From Stdlib Require Import Sorting.Sorted Sorting.Permutation.
From stdpp Require Import gmap list.

Local Open Scope N_scope.

(** ** Strings *)

Abbreviation str := (list N).
Abbreviation bytes := (list Byte.byte).

(** ASCII literals of the source, as code points. *)
Fixpoint str_of (s : string) : str :=
  match s with
  | EmptyString => []
  | String a r => N_of_ascii a :: str_of r
  end.

Arguments str_of : simpl never.

Notation "'s!' x" := (str_of x%string) (at level 1, x at level 0, only parsing).

(** Truthiness of a [str]: [if s:] holds for the non-empty ones. *)
Definition truthy {A} (s : list A) : bool :=
  match s with
  | [] => false
  | _ :: _ => true
  end.

Definition str_eqb (a b : str) : bool := bool_decide (a = b).

#[global] Instance byte_eq_decision : EqDecision Byte.byte := Byte.byte_eq_dec.

(** [s.startswith(prefix)] *)
Fixpoint startswith (prefix s : str) : bool :=
  match prefix, s with
  | [], _ => true
  | _ :: _, [] => false
  | p :: prefix', c :: s' => (p =? c) && startswith prefix' s'
  end.

(** [s.endswith(suffix)] *)
Definition endswith (suffix s : str) : bool :=
  startswith (rev suffix) (rev s).

(** [sub in s] *)
Fixpoint str_in (sub s : str) : bool :=
  startswith sub s ||
  match s with
  | [] => false
  | _ :: s' => str_in sub s'
  end.

(** ** Character classes *)

(** [_Py_ascii_whitespace]: TAB, LF, VT, FF, CR, FS, GS, RS, US and space. *)
Definition ascii_whitespace (c : N) : bool :=
  ((9 <=? c) && (c <=? 13)) || ((28 <=? c) && (c <=? 32)).

Definition ascii_isdigit (c : N) : bool := (48 <=? c) && (c <=? 57).
Definition ascii_isupper (c : N) : bool := (65 <=? c) && (c <=? 90).
Definition ascii_islower (c : N) : bool := (97 <=? c) && (c <=? 122).

Definition ascii_isalnum (c : N) : bool :=
  ascii_isdigit c || ascii_isupper c || ascii_islower c.

Definition ascii_tolower (c : N) : N :=
  if ascii_isupper c then c + 32 else c.

(** The part of the Unicode database the script depends on, for the code
    points from 128 on.  [uni_tolower_full before c after] is the full
    lowercase mapping of [c]; it sees the characters around [c] because
    CPython lowercases a capital sigma by its context ([before] is the text
    to the left of [c], nearest character first). *)
Class UnicodeData := {
  uni_isspace : N -> bool;
  uni_isalnum : N -> bool;
  uni_tolower_full : str -> N -> str -> str
}.

(** A database in which no code point from 128 on is a letter, a digit or
    white space.  It is never consulted on ASCII text. *)
Definition ucd_ascii : UnicodeData :=
  {| uni_isspace := fun _ => false;
     uni_isalnum := fun _ => false;
     uni_tolower_full := fun _ c _ => [c] |}.

Section Text.
Context {ucd : UnicodeData}.

(** [Py_UNICODE_ISSPACE] *)
Definition Py_UNICODE_ISSPACE (c : N) : bool :=
  if c <? 128 then ascii_whitespace c else uni_isspace c.

(** [Py_UNICODE_ISALNUM] *)
Definition Py_UNICODE_ISALNUM (c : N) : bool :=
  if c <? 128 then ascii_isalnum c else uni_isalnum c.

(** The regex category [\w] on a [str] pattern: alphanumeric or underscore. *)
Definition re_word (c : N) : bool := Py_UNICODE_ISALNUM c || (c =? 95).

(** The regex category [\s]. *)
Definition re_space (c : N) : bool := Py_UNICODE_ISSPACE c.

(** The set [[^\w\s-]] of line 134. *)
Definition re_unsafe (c : N) : bool :=
  negb (re_word c || re_space c || (c =? 45)).

(** [re.sub(r'[^\w\s-]', '', s)]: every match is one character and is
    replaced by the empty string. *)
Fixpoint re_sub_unsafe (s : str) : str :=
  match s with
  | [] => []
  | c :: s' => if re_unsafe c then re_sub_unsafe s' else c :: re_sub_unsafe s'
  end.

(** [safe_judge], line 134. *)
Definition safe_judge (judge_name : str) : str :=
  take 40 (re_sub_unsafe judge_name).

(** [s.lstrip()], [s.rstrip()] and [s.strip()] *)
Fixpoint lstrip (s : str) : str :=
  match s with
  | [] => []
  | c :: s' => if Py_UNICODE_ISSPACE c then lstrip s' else s
  end.

Definition rstrip (s : str) : str := rev (lstrip (rev s)).

Definition strip (s : str) : str := rstrip (lstrip s).

(** [s.lower()] *)
Fixpoint lower_from (before s : str) : str :=
  match s with
  | [] => []
  | c :: after =>
      (if c <? 128 then [ascii_tolower c] else uni_tolower_full before c after)
      ++ lower_from (c :: before) after
  end.

Definition lower (s : str) : str := lower_from [] s.

End Text.

(** ** Constants *)

Definition DELHI_BASE_URL : str := s!"https://newdelhi.dcourts.gov.in".

Definition DELHI_CAUSELIST_URL : str :=
  DELHI_BASE_URL ++ s!"/cause-list-%e2%81%84-daily-board/".

(** The dictionary of lines 24-30, in insertion order: display name, slug. *)
Definition DELHI_COURTS : list (str * str) :=
  [ (s!"Patiala House Court Complex", s!"patiala-house");
    (s!"Tis Hazari Court", s!"tis-hazari");
    (s!"Karkardooma Court", s!"karkardooma");
    (s!"Delhi High Court", s!"dhc");
    (s!"Special CBI Courts", s!"cbi-courts") ].

(** [list(DELHI_COURTS.keys())], the options of the court selector. *)
Definition DELHI_COURTS_keys : list str := map fst DELHI_COURTS.

(** [DELHI_COURTS.get(name)] *)
Definition DELHI_COURTS_get (name : str) : option str :=
  snd <$> List.find (fun kv => str_eqb (fst kv) name) DELHI_COURTS.

(** ** Link discovery on a parsed page *)

(** An [<a>] element of the parsed document: its [href] attribute, when it
    has one, and the text nodes below it in document order. *)
Record Tag := {
  attr_href : option str;
  strings : list str
}.

Record PdfLink := {
  name : str;
  url : str;
  judge : str
}.

(** [re.compile(r'\.pdf', re.I)] matched at the head of [s]: a dot, then
    p, d, f in either case. No other code point folds to one of these
    letters. *)
Definition pdf_here (s : str) : bool :=
  match s with
  | c0 :: c1 :: c2 :: c3 :: _ =>
      (c0 =? 46) && ((c1 =? 112) || (c1 =? 80))
      && ((c2 =? 100) || (c2 =? 68)) && ((c3 =? 102) || (c3 =? 70))
  | _ => false
  end.

(** [pattern.search(s)] for that pattern. *)
Fixpoint pdf_search (s : str) : bool :=
  pdf_here s ||
  match s with
  | [] => false
  | _ :: s' => pdf_search s'
  end.

(** The attribute filter of [find_all('a', href=pattern)]: the tag has the
    attribute and the pattern is found in its value. *)
Definition href_matches (link : Tag) : bool :=
  match attr_href link with
  | Some h => pdf_search h
  | None => false
  end.

(** [soup.find_all('a', href=re.compile(r'\.pdf', re.I))] over the [<a>]
    elements of the document. *)
Definition find_all_a_pdf (soup : list Tag) : list Tag :=
  List.filter href_matches soup.

(** Lines 74-77: the absolute URL of a stripped [href]. *)
Definition full_url (href : str) : str :=
  if startswith s!"http" href then href
  else if startswith s!"/" href then DELHI_BASE_URL ++ href
       else DELHI_BASE_URL ++ s!"/" ++ href.

Section Discovery.
Context {ucd : UnicodeData}.

(** [link.get('href', '').strip()] *)
Definition get_href (link : Tag) : str :=
  strip (default [] (attr_href link)).

(** [link.get_text(strip=True)]: every text node is stripped, the empty ones
    are dropped and the rest is joined with the empty separator. *)
Definition get_text_strip (link : Tag) : str :=
  concat (List.filter truthy (map strip (strings link))).

(** The condition of line 82. *)
Definition filtered_out (court_complex : option str) (link_text : str) : bool :=
  match court_complex with
  | None => false
  | Some c => truthy c && negb (str_in (lower c) (lower link_text))
  end.

(** The test of line 80 and the filter of line 82, for a tag. *)
Definition kept (court_complex : option str) (link : Tag) : bool :=
  truthy (get_text_strip link)
  && negb (filtered_out court_complex (get_text_strip link)).

(** The loop of lines 68-89 over the tags [find_all] returned, with the list
    built so far. *)
Fixpoint links_loop (court_complex : option str) (tags : list Tag)
    (pdf_links : list PdfLink) : list PdfLink :=
  match tags with
  | [] => pdf_links
  | link :: rest =>
      let href := get_href link in
      if negb (truthy href) then links_loop court_complex rest pdf_links
      else
        let url := full_url href in
        let link_text := get_text_strip link in
        if truthy link_text then
          if filtered_out court_complex link_text
          then links_loop court_complex rest pdf_links
          else links_loop court_complex rest
                 (pdf_links ++ [ {| name := link_text; url := url; judge := link_text |} ])
        else links_loop court_complex rest pdf_links
  end.

(** The tests an anchor goes through for a court complex: the attribute
    filter of line 68, line 80 and line 82. *)
Definition selects (court_complex : str) (link : Tag) : bool :=
  href_matches link && truthy (get_text_strip link)
  && str_in (lower court_complex) (lower (get_text_strip link)).

(** The dictionary of lines 85-89 for a tag. *)
Definition pdf_link_of (link : Tag) : PdfLink :=
  {| name := get_text_strip link;
     url := full_url (get_href link);
     judge := get_text_strip link |}.

(** Lines 64-91: what the function returns for a parsed page. *)
Definition pdf_links_of_soup (court_complex : option str) (soup : list Tag)
    : list PdfLink :=
  links_loop court_complex (find_all_a_pdf soup) [].

End Discovery.

(** ** File names *)

Record date := {
  year : nat;
  month : nat;
  day : nat
}.

Definition digit (n : nat) : N := 48 + N.of_nat (n mod 10).

Fixpoint decimal_fuel (fuel n : nat) : str :=
  match fuel with
  | O => []
  | S fuel' =>
      if (n <? 10)%nat then [digit n]
      else decimal_fuel fuel' (n / 10) ++ [digit n]
  end.

(** The decimal digits of [n]. *)
Definition decimal (n : nat) : str := decimal_fuel (S n) n.

(** Zero padding to a width, as the directives [%d] and [%m] do. *)
Definition zero_pad (width : nat) (s : str) : str :=
  replicate (width - length s) 48 ++ s.

(** [date_obj.strftime("%d-%m-%Y")]: day and month with two digits, the
    year as the C library of Linux writes it, without padding (four digits
    from the year 1000 on). *)
Definition strftime_dmY (d : date) : str :=
  zero_pad 2 (decimal (day d)) ++ s!"-" ++ zero_pad 2 (decimal (month d))
  ++ s!"-" ++ decimal (year d).

(** The characters of a date string. *)
Definition is_digit_or_hyphen (c : N) : bool := ascii_isdigit c || (c =? 45).

(** Line 135. *)
Definition make_filename (court_complex safe_judge date_str : str) : str :=
  s!"CauseList_" ++ court_complex ++ s!"_" ++ safe_judge ++ s!"_" ++ date_str
  ++ s!".pdf".

(** [os.path.join(a, b)] of [posixpath]. *)
Definition os_path_join (a b : str) : str :=
  if startswith s!"/" b then b
  else if negb (truthy a) || endswith s!"/" a then a ++ b
       else a ++ s!"/" ++ b.

(** ** The environment and the process state *)

(** [requests.Response], as far as the script reads it. *)
Record Response := {
  status_code : Z;
  content : bytes
}.

(** What [requests.get] does: it raises, or it returns a response. *)
Inductive get_result :=
  | ConnectionError
  | Timeout
  | Returned (r : Response).

(** [http_get n url timeout] answers the request number [n] of the process.
    [html_parser] stands for [BeautifulSoup(content, 'html.parser')] and
    gives the [<a>] elements of the document in document order.
    [open_wb path] tells whether the block of lines 106-107 runs to its end
    for [path]: [open(path, 'wb')] succeeds and [f.write] writes the whole
    body.  When it does not, [write_breaks path data] tells where it
    breaks: [None] when [open] raises, so that nothing is created, and
    [Some n] when the file is created or truncated and an exception comes
    with the first [n] bytes of [data] written. *)
Class Environment := {
  http_get : nat -> str -> Z -> get_result;
  html_parser : bytes -> list Tag;
  open_wb : str -> bool;
  write_breaks : str -> bytes -> option nat
}.

Record Process := {
  sent : list (str * Z);
  disk : gmap str bytes
}.

(** The process after one more request. *)
Definition log_request (url : str) (timeout : Z) (w : Process) : Process :=
  {| sent := sent w ++ [(url, timeout)]; disk := disk w |}.

(** Computations that read and update the process state. *)
Definition M (A : Type) : Type := Process -> A * Process.

Definition ret {A} (a : A) : M A := fun w => (a, w).

Definition bind {A B} (c : M A) (k : A -> M B) : M B :=
  fun w => let (a, w') := c w in k a w'.

Notation "'let*' x ':=' c 'in' k" := (bind c (fun x => k))
  (at level 10, x name, c at level 100, k at level 200).

(** The dictionary of lines 141-145, with keys judge, filepath, filename. *)
Record DownloadedFile := {
  df_judge : str;
  df_filepath : str;
  df_filename : str
}.

Section Program.
Context {ucd : UnicodeData} {env : Environment}.

(** [requests.get(url, headers=headers, timeout=timeout)] *)
Definition requests_get (url : str) (timeout : Z) : M get_result :=
  fun w => (http_get (length (sent w)) url timeout, log_request url timeout w).

(** [response.raise_for_status()] raises for the 4xx and 5xx codes. *)
Definition raises_for_status (r : Response) : bool :=
  ((400 <=? status_code r) && (status_code r <? 600))%Z.

(** [bool(response)] is [response.ok]. *)
Definition response_ok (r : Response) : bool := negb (raises_for_status r).

(** [not response] for what [safe_request] returned. *)
Definition not_response (response : option Response) : bool :=
  match response with
  | None => true
  | Some r => negb (response_ok r)
  end.

(** Lines 34-41. *)
Definition safe_request (url : str) (timeout : Z) : M (option Response) :=
  let* result := requests_get url timeout in
  match result with
  | Returned response =>
      if raises_for_status response then ret None else ret (Some response)
  | ConnectionError | Timeout => ret None
  end.

(** Lines 57-95. *)
Definition get_pdf_links_for_court_and_date (date_obj : date)
    (court_complex : option str) : M (list PdfLink) :=
  let* response := safe_request DELHI_CAUSELIST_URL 10 in
  match response with
  | Some r =>
      if not_response response then ret []
      else ret (pdf_links_of_soup court_complex (html_parser (content r)))
  | None => ret []
  end.

(** What a write that breaks leaves on the disk. *)
Definition broken_write (filepath : str) (data : bytes) (d : gmap str bytes)
    : gmap str bytes :=
  match write_breaks filepath data with
  | Some n => <[filepath := take n data]> d
  | None => d
  end.

(** Lines 106-107: the file gets the content, or an exception is raised,
    by [open] or after it. *)
Definition write_file (filepath : str) (data : bytes) : M bool :=
  fun w =>
    if open_wb filepath
    then (true, {| sent := sent w; disk := <[filepath := data]> (disk w) |})
    else (false, {| sent := sent w; disk := broken_write filepath data (disk w) |}).

(** The test of line 104. *)
Definition accepted (r : Response) : bool :=
  (status_code r =? 200)%Z && (1000 <? length (content r))%nat.

(** Lines 97-111. *)
Definition download_pdf (pdf_url filename : str) : M (option str) :=
  let* response := safe_request pdf_url 20 in
  match response with
  | Some r =>
      if not_response response then ret None
      else if accepted r then
        let filepath := os_path_join s!"downloaded_pdfs" filename in
        let* written := write_file filepath (content r) in
        if written then ret (Some filepath) else ret None
      else ret None
  | None => ret None
  end.

(** [if filepath:] on what [download_pdf] returned. *)
Definition is_filepath (filepath : option str) : bool :=
  match filepath with
  | Some p => truthy p
  | None => false
  end.

(** The loop of lines 129-150. *)
Fixpoint download_loop (court_complex date_str : str) (pdf_links : list PdfLink)
    (downloaded_files : list DownloadedFile) : M (list DownloadedFile) :=
  match pdf_links with
  | [] => ret downloaded_files
  | pdf_link :: rest =>
      let judge_name := judge pdf_link in
      let filename := make_filename court_complex (safe_judge judge_name) date_str in
      let* filepath := download_pdf (url pdf_link) filename in
      if is_filepath filepath then
        download_loop court_complex date_str rest
          (downloaded_files ++
             [ {| df_judge := judge_name;
                  df_filepath := default [] filepath;
                  df_filename := filename |} ])
      else download_loop court_complex date_str rest downloaded_files
  end.

(** Lines 113-159. *)
Definition download_all_judges_pdfs (date_obj : date) (court_complex : str)
    : M (list DownloadedFile) :=
  let* pdf_links := get_pdf_links_for_court_and_date date_obj (Some court_complex) in
  if negb (truthy pdf_links) then ret []
  else
    let date_str := strftime_dmY date_obj in
    download_loop court_complex date_str pdf_links [].

(** What the environment makes of one link when its download is request
    number [n]: the record of a response that is accepted and written, and
    nothing otherwise. *)
Definition attempt (court_complex date_str : str) (n : nat) (pdf_link : PdfLink)
    : option DownloadedFile :=
  let filename := make_filename court_complex (safe_judge (judge pdf_link)) date_str in
  let filepath := os_path_join s!"downloaded_pdfs" filename in
  match http_get n (url pdf_link) 20 with
  | Returned r =>
      if accepted r && open_wb filepath
      then Some {| df_judge := judge pdf_link;
                   df_filepath := filepath;
                   df_filename := filename |}
      else None
  | ConnectionError | Timeout => None
  end.

(** The records of a batch whose first download is request number [n]:
    link after link, each with the request that follows. *)
Fixpoint successes (court_complex date_str : str) (n : nat)
    (pdf_links : list PdfLink) : list DownloadedFile :=
  match pdf_links with
  | [] => []
  | pdf_link :: rest =>
      option_list (attempt court_complex date_str n pdf_link)
      ++ successes court_complex date_str (S n) rest
  end.

End Program.

(** ** The specification's wording, for comparison *)

Section Wording.
Context {ucd : UnicodeData}.

(** Alphanumeric, white space or hyphen. *)
Definition spec_keeps (c : N) : bool :=
  Py_UNICODE_ISALNUM c || Py_UNICODE_ISSPACE c || (c =? 45).

(** Strip every other character, then truncate to 40 characters. *)
Definition spec_sanitize (judge_name : str) : str :=
  take 40 (List.filter spec_keeps judge_name).

(** The visible text of an anchor: its text nodes, one after the other. *)
Definition spec_visible_text (link : Tag) : str := concat (strings link).

(** The anchors the specification keeps for a court complex: the [href]
    matches the pattern, the visible text is not empty and contains the
    court-complex string, case-insensitively. *)
Definition spec_selects (court_complex : str) (link : Tag) : bool :=
  href_matches link && truthy (spec_visible_text link)
  && str_in (lower court_complex) (lower (spec_visible_text link)).

End Wording.

Definition ascii_isalpha (c : N) : bool := ascii_isupper c || ascii_islower c.

(** A URI scheme: a letter, then letters, digits, plus, minus or dot, up to
    a colon. *)
Fixpoint scheme_rest (s : str) : bool :=
  match s with
  | [] => false
  | c :: s' =>
      (c =? 58) ||
      ((ascii_isalpha c || ascii_isdigit c || (c =? 43) || (c =? 45) || (c =? 46))
       && scheme_rest s')
  end.

Definition has_scheme (href : str) : bool :=
  match href with
  | [] => false
  | c :: s' => ascii_isalpha c && scheme_rest s'
  end.

(** Use as-is when the href has a scheme, else prefix the origin, with a
    slash when the href does not start with one. *)
Definition spec_full_url (href : str) : str :=
  if has_scheme href then href
  else if startswith s!"/" href then DELHI_BASE_URL ++ href
       else DELHI_BASE_URL ++ s!"/" ++ href.

(** The file name with the slug of the selected court complex. *)
Definition spec_filename (selected_court safe_judge date_str : str) : str :=
  make_filename (default [] (DELHI_COURTS_get selected_court)) safe_judge date_str.

(** A status outside 200-299. *)
Definition non_2xx (r : Response) : bool :=
  negb ((200 <=? status_code r) && (status_code r <? 300))%Z.

(** ** A mocked site *)

(** A page with five PDF anchors, three of them for Tis Hazari. *)
Definition mock_html : bytes :=
  list_byte_of_string
    ("<a href='/a/one.pdf'> Tis Hazari Court - Judge A/1 </a>" ++
     "<a href='/d.pdf'>Karkardooma Court D</a>" ++
     "<a href='b/two.PDF'>TIS HAZARI COURT Judge_B</a>" ++
     "<a href='/e.pdf'>Saket</a>" ++
     "<a href='http://x.org/three.pdf'>Court: tis hazari court (C)</a>")%string.

Definition mock_soup : list Tag :=
  [ {| attr_href := Some s!"/a/one.pdf";
       strings := [s!" Tis Hazari Court - Judge A/1 "] |};
    {| attr_href := Some s!"/d.pdf"; strings := [s!"Karkardooma Court D"] |};
    {| attr_href := Some s!"b/two.PDF"; strings := [s!"TIS HAZARI COURT Judge_B"] |};
    {| attr_href := Some s!"/e.pdf"; strings := [s!"Saket"] |};
    {| attr_href := Some s!"http://x.org/three.pdf";
       strings := [s!"Court: tis hazari court (C)"] |} ].

(** The site answers the cause-list URL with [page] and any other URL with
    [pdf]; the parser knows the mocked page; [can_open] decides whether a
    file is written, and where it is not, [open] has raised. *)
Definition mock_env (page : get_result) (pdf : str -> get_result)
    (can_open : str -> bool) : Environment :=
  {| http_get := fun _ u _ => if str_eqb u DELHI_CAUSELIST_URL then page else pdf u;
     html_parser := fun body => if bool_decide (body = mock_html) then mock_soup else [];
     open_wb := can_open;
     write_breaks := fun _ _ => None |}.

Definition mock_response (status : Z) (body : bytes) : get_result :=
  Returned {| status_code := status; content := body |}.

(** A body of [n] bytes. *)
Definition body_of_size (n : nat) : bytes := replicate n Byte.x25.

(** The site at its best: the page and every PDF come with status 200. *)
Definition mock_site : Environment :=
  mock_env (mock_response 200 mock_html)
    (fun _ => mock_response 200 (body_of_size 2048)) (fun _ => true).

Definition fresh_process : Process := {| sent := []; disk := empty |}.

Definition april_5_2025 : date := {| year := 2025; month := 4; day := 5 |}.

(** The mocked site when every PDF request is answered with [status] and a
    body of [n] bytes. *)
Definition mock_site_pdf (status : Z) (n : nat) : Environment :=
  mock_env (mock_response 200 mock_html)
    (fun _ => mock_response status (body_of_size n)) (fun _ => true).

(** The mocked site when the page request is answered with [page]. *)
Definition mock_site_page (page : get_result) : Environment :=
  mock_env page (fun _ => mock_response 200 (body_of_size 2048)) (fun _ => true).

(** The mocked site when the second PDF of the page times out. *)
Definition mock_site_flaky : Environment :=
  mock_env (mock_response 200 mock_html)
    (fun u => if str_eqb u s!"https://newdelhi.dcourts.gov.in/b/two.PDF"
              then Timeout else mock_response 200 (body_of_size 2048))
    (fun _ => true).

(** ** The rest of the script *)

(** A string on which [lstrip] and [rstrip] change nothing. *)
Definition stripped {ucd : UnicodeData} (s : str) : Prop :=
  lstrip s = s /\ rstrip s = s.

(** Code points below 128. *)
Definition is_ascii (s : str) : Prop := Forall (fun c => c < 128) s.

(** A [datetime.date]: a month from 1 to 12, a day from 1 to 31, a year
    from 1 to 9999. *)
Definition valid_date (d : date) : Prop :=
  (1 <= month d <= 12)%nat /\ (1 <= day d <= 31)%nat /\ (1 <= year d < 100 * 100)%nat.

Section CourtName.
Context {ucd : UnicodeData} {env : Environment}.

(** [find_title content] stands for
    [BeautifulSoup(content, 'html.parser').find('title')]: the first
    [<title>] element of the document, when there is one. *)
Variable find_title : bytes -> option Tag.

(** Lines 43-55.  A tag is truthy whatever its contents. *)
Definition get_court_complex_name_from_url (url : str) : M (option str) :=
  let* response := safe_request url 10 in
  match response with
  | Some r =>
      if not_response response then ret None
      else
        match find_title (content r) with
        | Some title => ret (Some (get_text_strip title))
        | None => ret None
        end
  | None => ret None
  end.

End CourtName.

(** [a <= b] on [str]: lexicographic, by code point. *)
Fixpoint str_leb (a b : str) : bool :=
  match a, b with
  | [], _ => true
  | _ :: _, [] => false
  | x :: a', y :: b' =>
      if x <? y then true else if y <? x then false else str_leb a' b'
  end.

(** [sorted(files, reverse=True)]: the names in descending order. *)
Fixpoint insert_desc (x : str) (sorted : list str) : list str :=
  match sorted with
  | [] => [x]
  | y :: rest => if str_leb y x then x :: sorted else y :: insert_desc x rest
  end.

Definition sorted_reverse (files : list str) : list str :=
  foldr insert_desc [] files.

(** Line 219: [sorted(files, reverse=True)[:8]], the names the side panel
    lists. *)
Definition recent_files (files : list str) : list str :=
  take 8 (sorted_reverse files).

(** Lines 188-210: what the button shows after a run, the number of files
    or the message that nothing was found. *)
Inductive banner :=
  | DownloadedCount (n : nat)
  | NoCauseListsFound.

Definition on_download_button {ucd : UnicodeData} {env : Environment}
    (selected_date : date) (selected_court : str) : M banner :=
  let* downloaded := download_all_judges_pdfs selected_date selected_court in
  if truthy downloaded then ret (DownloadedCount (length downloaded))
  else ret NoCauseListsFound.

(** The mocked site when the page has no anchor. *)
Definition mock_site_empty_page : Environment :=
  mock_env (mock_response 200 []) (fun _ => mock_response 200 (body_of_size 2048))
    (fun _ => true).

(** Two anchors whose labels differ only in characters that sanitization
    removes. *)
Definition twin_links : list PdfLink :=
  [ {| name := s!"Judge A/1"; url := s!"https://newdelhi.dcourts.gov.in/x.pdf";
       judge := s!"Judge A/1" |};
    {| name := s!"Judge A1"; url := s!"https://newdelhi.dcourts.gov.in/y.pdf";
       judge := s!"Judge A1" |} ].

(** A site that answers the [n]-th request with a body of [2000 + n]
    bytes. *)
Definition mock_site_numbered : Environment :=
  {| http_get := fun n _ _ => mock_response 200 (body_of_size (2000 + n));
     html_parser := fun _ => [];
     open_wb := fun _ => true;
     write_breaks := fun _ _ => None |}.

(** A page with a title and no anchor. *)
Definition mock_titled_html : bytes :=
  list_byte_of_string "<html><head><title>  Tis Hazari Court  </title></head></html>".

(** The title element of that page. *)
Definition mock_title (content : bytes) : option Tag :=
  if bool_decide (content = mock_titled_html)
  then Some {| attr_href := None; strings := [s!"  Tis Hazari Court  "] |}
  else None.

(** An anchor with a nested element:
    [<a href='/x.pdf'><b>Tis</b> Hazari Court</a>]. *)
Definition nested_anchor : Tag :=
  {| attr_href := Some s!"/x.pdf"; strings := [s!"Tis"; s!" Hazari Court"] |}.

(** The mocked site on a full disk: every file is created and the write
    breaks after 10 bytes. *)
Definition mock_site_full_disk : Environment :=
  {| http_get := fun _ u _ =>
       if str_eqb u DELHI_CAUSELIST_URL then mock_response 200 mock_html
       else mock_response 200 (body_of_size 2048);
     html_parser := fun body => if bool_decide (body = mock_html) then mock_soup else [];
     open_wb := fun _ => false;
     write_breaks := fun _ _ => Some 10%nat |}.

(** * Properties *)

(** ** Lists and strings *)

Lemma In_take {A} (n : nat) (l : list A) (x : A) : In x (take n l) -> In x l.
Proof.
  revert l; induction n as [|n IH]; intros [|a l]; simpl; try tauto.
  intros [->|H]; [now left | right; now apply IH].
Qed.

Lemma startswith_spec (prefix s : str) :
  startswith prefix s = true <-> exists rest, s = prefix ++ rest.
Proof.
  revert s; induction prefix as [|p prefix IH]; intros s; simpl.
  - split; [intros _; now exists s | trivial].
  - destruct s as [|c s].
    + split; [discriminate | intros [rest H]; discriminate].
    + rewrite andb_true_iff, N.eqb_eq, IH. split.
      * intros [-> [rest ->]]. now exists rest.
      * intros [rest H]. injection H as -> ->. split; [reflexivity | now exists rest].
Qed.

(** [sub in s] holds exactly when [sub] occurs in [s] as a block. *)
Lemma str_in_spec (sub s : str) :
  str_in sub s = true <-> exists before after, s = before ++ sub ++ after.
Proof.
  induction s as [|c s IH]; simpl; rewrite orb_true_iff, startswith_spec.
  - split.
    + intros [[rest H]|H]; [|discriminate]. exists [], rest. exact H.
    + intros [[|b before] [after H]]; [left; now exists after | discriminate].
  - rewrite IH. split.
    + intros [[rest H]|[before [after H]]].
      * exists [], rest. exact H.
      * exists (c :: before), after. simpl. now rewrite H.
    + intros [[|b before] [after H]].
      * left. now exists after.
      * right. injection H as _ H. now exists before, after.
Qed.

Lemma pdf_here_has_dot (s : str) : pdf_here s = true -> exists s', s = 46 :: s'.
Proof.
  destruct s as [|c0 [|c1 [|c2 [|c3 s]]]]; simpl; try discriminate.
  rewrite !andb_true_iff, N.eqb_eq. intros [[[-> _] _] _]. eauto.
Qed.

Lemma pdf_search_has_dot (s : str) : pdf_search s = true -> In 46 s.
Proof.
  induction s as [|c s IH]; simpl.
  - discriminate.
  - rewrite orb_true_iff. intros [H|H].
    + apply (pdf_here_has_dot (c :: s)) in H as [s' H]. injection H as -> _. now left.
    + right. now apply IH.
Qed.

Section TextFacts.
Context {ucd : UnicodeData}.

Lemma re_sub_unsafe_filter (s : str) :
  re_sub_unsafe s = List.filter (fun c => negb (re_unsafe c)) s.
Proof.
  induction s as [|c s IH]; simpl; [reflexivity|].
  destruct (re_unsafe c); simpl; now rewrite IH.
Qed.

Lemma In_re_sub_unsafe (c : N) (s : str) :
  In c (re_sub_unsafe s) <-> In c s /\ re_unsafe c = false.
Proof.
  rewrite re_sub_unsafe_filter, filter_In, negb_true_iff. tauto.
Qed.

Lemma In_safe_judge (c : N) (judge_name : str) :
  In c (safe_judge judge_name) -> In c judge_name /\ re_unsafe c = false.
Proof.
  unfold safe_judge. intros H. apply In_re_sub_unsafe. now apply In_take in H.
Qed.

Lemma safe_judge_length (judge_name : str) :
  (length (safe_judge judge_name) <= 40)%nat.
Proof. unfold safe_judge. rewrite length_take. lia. Qed.

(** A character that is not white space survives [strip]. *)
Lemma In_lstrip (c : N) (s : str) :
  In c s -> Py_UNICODE_ISSPACE c = false -> In c (lstrip s).
Proof.
  induction s as [|a s IH]; simpl; [tauto|].
  intros [->|H] Hc.
  - rewrite Hc. now left.
  - destruct (Py_UNICODE_ISSPACE a); [now apply IH | now right].
Qed.

Lemma In_strip (c : N) (s : str) :
  In c s -> Py_UNICODE_ISSPACE c = false -> In c (strip s).
Proof.
  intros H Hc. unfold strip, rstrip.
  rewrite <- in_rev. apply In_lstrip; [|exact Hc].
  rewrite <- in_rev. now apply In_lstrip.
Qed.

(** The test of line 70 never fires: a value in which the pattern is found
    has a dot, which stripping keeps. *)
Lemma get_href_truthy (link : Tag) :
  href_matches link = true -> truthy (get_href link) = true.
Proof.
  unfold href_matches, get_href. destruct (attr_href link) as [h|]; [|discriminate].
  intros H. apply pdf_search_has_dot in H. simpl.
  apply (In_strip 46) in H; [|reflexivity].
  destruct (strip h); [destruct H | reflexivity].
Qed.

End TextFacts.

Example strftime_example :
  strftime_dmY {| year := 2025; month := 4; day := 5 |} = s!"05-04-2025".
Proof. reflexivity. Qed.

(** ** File-name sanitization *)

(** The underscore is neither alphanumeric, white space nor hyphen, and
    line 134 keeps it: the pattern class is [\w], which has it. *)
Lemma safe_judge_keeps_underscore :
  spec_keeps (ucd := ucd_ascii) 95 = false
  /\ safe_judge (ucd := ucd_ascii) s!"Judge_A" = s!"Judge_A"
  /\ spec_sanitize (ucd := ucd_ascii) s!"Judge_A" = s!"JudgeA".
Proof. repeat split. Qed.

Section Sanitization.
Context {ucd : UnicodeData}.

(** C2, amended: sanitization strips every character that is not
    alphanumeric, underscore, white space or hyphen, then truncates to at
    most 40 characters; "Justice A/B (Court-5)" becomes
    "Justice AB Court-5". *)
Theorem safe_judge_spec (judge_name : str) :
  safe_judge judge_name =
    take 40 (List.filter
      (fun c => Py_UNICODE_ISALNUM c || (c =? 95) || Py_UNICODE_ISSPACE c || (c =? 45))
      judge_name)
  /\ (length (safe_judge judge_name) <= 40)%nat
  /\ safe_judge s!"Justice A/B (Court-5)" = s!"Justice AB Court-5".
Proof.
  split; [|split].
  - unfold safe_judge. rewrite re_sub_unsafe_filter. f_equal.
    apply filter_ext. intros c. unfold re_unsafe, re_word, re_space.
    now rewrite negb_involutive.
  - apply safe_judge_length.
  - reflexivity.
Qed.

(** Where there is no underscore the two readings agree. *)
Lemma safe_judge_without_underscore (judge_name : str) :
  ~ In 95 judge_name -> safe_judge judge_name = spec_sanitize judge_name.
Proof.
  intros H. unfold safe_judge, spec_sanitize. rewrite re_sub_unsafe_filter.
  f_equal. apply filter_ext_in. intros c Hc.
  unfold re_unsafe, re_word, re_space, spec_keeps. rewrite negb_involutive.
  destruct (N.eqb_spec c 95) as [->|_]; [contradiction|].
  now rewrite orb_false_r.
Qed.

(** The characters a path is built with do not survive: dot, slash,
    backslash, colon and NUL. *)
Lemma safe_judge_no_path_char (judge_name : str) (c : N) :
  In c [46; 47; 92; 58; 0] -> ~ In c (safe_judge judge_name).
Proof.
  intros Hc H. apply In_safe_judge in H as [_ H].
  simpl in Hc. destruct Hc as [<-|[<-|[<-|[<-|[<-|[]]]]]]; discriminate H.
Qed.

End Sanitization.

(** ** Absolute URLs *)

(** An [ftp] href has a scheme and still gets the origin in front; a
    relative path that begins with the letters http has none and is left
    alone. *)
Lemma full_url_tests_http_prefix :
  has_scheme s!"ftp://files.example/list.pdf" = true
  /\ full_url s!"ftp://files.example/list.pdf" =
       s!"https://newdelhi.dcourts.gov.in/ftp://files.example/list.pdf"
  /\ spec_full_url s!"ftp://files.example/list.pdf" = s!"ftp://files.example/list.pdf"
  /\ has_scheme s!"httpdocs/list.pdf" = false
  /\ full_url s!"httpdocs/list.pdf" = s!"httpdocs/list.pdf".
Proof. repeat split. Qed.

(** C4, amended: an href that starts with the letters http is left
    unchanged; any other href gets the site origin in front, with a
    separating slash only when the href does not start with one. *)
Theorem full_url_cases (href : str) :
  (startswith s!"http" href = true -> full_url href = href)
  /\ (startswith s!"http" href = false -> startswith s!"/" href = true ->
      full_url href = DELHI_BASE_URL ++ href)
  /\ (startswith s!"http" href = false -> startswith s!"/" href = false ->
      full_url href = DELHI_BASE_URL ++ s!"/" ++ href)
  /\ full_url s!"/path/file.pdf" = DELHI_BASE_URL ++ s!"/path/file.pdf"
  /\ full_url s!"path/file.pdf" = DELHI_BASE_URL ++ s!"/path/file.pdf".
Proof.
  unfold full_url. repeat split.
  - now intros ->.
  - now intros -> ->.
  - now intros -> ->.
Qed.

(** An http or https URL has a scheme and is kept as it is. *)
Lemma full_url_http (rest : str) :
  full_url (s!"http://" ++ rest) = s!"http://" ++ rest
  /\ full_url (s!"https://" ++ rest) = s!"https://" ++ rest.
Proof. split; reflexivity. Qed.


(** ** Link discovery *)

Lemma filter_filter {A} (f g : A -> bool) (l : list A) :
  List.filter f (List.filter g l) = List.filter (fun x => g x && f x) l.
Proof.
  induction l as [|a l IH]; simpl; [reflexivity|].
  destruct (g a); simpl; [destruct (f a)|]; now rewrite IH.
Qed.

Section DiscoveryFacts.
Context {ucd : UnicodeData}.

(** On tags that [find_all] returned, the loop appends one dictionary for
    every tag that passes lines 80 and 82, in order. *)
Lemma links_loop_spec (court_complex : option str) (tags : list Tag)
    (pdf_links : list PdfLink) :
  Forall (fun link => href_matches link = true) tags ->
  links_loop court_complex tags pdf_links =
    pdf_links ++ map pdf_link_of (List.filter (kept court_complex) tags).
Proof.
  intros H. revert pdf_links.
  induction H as [|link rest Hlink _ IH]; intros pdf_links;
    cbn [links_loop List.filter].
  - cbn. now rewrite app_nil_r.
  - rewrite (get_href_truthy link Hlink). cbn [negb].
    unfold kept at 1.
    destruct (truthy (get_text_strip link)); cbn [andb map]; [|apply IH].
    destruct (filtered_out court_complex (get_text_strip link)); cbn [negb map];
      [apply IH|].
    rewrite IH, <- app_assoc. reflexivity.
Qed.

Lemma find_all_a_pdf_matches (soup : list Tag) :
  Forall (fun link => href_matches link = true) (find_all_a_pdf soup).
Proof.
  apply List.Forall_forall. intros link H. now apply filter_In in H as [_ H].
Qed.

Lemma pdf_links_of_soup_kept (court_complex : option str) (soup : list Tag) :
  pdf_links_of_soup court_complex soup =
    map pdf_link_of
      (List.filter (fun link => href_matches link && kept court_complex link) soup).
Proof.
  unfold pdf_links_of_soup.
  rewrite links_loop_spec by apply find_all_a_pdf_matches.
  unfold find_all_a_pdf. now rewrite filter_filter.
Qed.

(** The pattern is found in [s] exactly where a dot is followed by p, d
    and f, each in either case. *)
Lemma pdf_search_spec (s : str) :
  pdf_search s = true <->
  exists before c1 c2 c3 after,
    s = before ++ 46 :: c1 :: c2 :: c3 :: after
    /\ (c1 = 112 \/ c1 = 80) /\ (c2 = 100 \/ c2 = 68) /\ (c3 = 102 \/ c3 = 70).
Proof.
  induction s as [|c s IH]; cbn [pdf_search].
  - split; [discriminate|].
    intros [[|b before] [c1 [c2 [c3 [after [H _]]]]]]; discriminate.
  - rewrite orb_true_iff, IH. split.
    + intros [H | [before [c1 [c2 [c3 [after [-> H]]]]]]].
      * destruct s as [|c1 [|c2 [|c3 after]]]; try discriminate H.
        cbn [pdf_here] in H.
        rewrite !andb_true_iff, !orb_true_iff, !N.eqb_eq in H.
        destruct H as [[[-> H1] H2] H3].
        now exists [], c1, c2, c3, after.
      * now exists (c :: before), c1, c2, c3, after.
    + intros [[|b before] [c1 [c2 [c3 [after [H Hc]]]]]]; injection H as -> ->.
      * left. cbn [pdf_here].
        rewrite !andb_true_iff, !orb_true_iff, !N.eqb_eq. tauto.
      * right. now exists before, c1, c2, c3, after.
Qed.

(** C3, amended: for a non-empty court-complex string, the result has one
    PdfLink for every anchor whose href matches the pattern and whose text
    as [get_text(strip=True)] gives it (every text node stripped, the empty
    ones dropped, the rest joined with nothing in between) is not empty and
    contains the string case-insensitively, in document order, and nothing
    for any other anchor; on the mocked page the three Tis Hazari anchors
    are returned, whatever their case. *)
Theorem pdf_links_of_soup_spec (court_complex : str) (soup : list Tag) :
  court_complex <> [] ->
  pdf_links_of_soup (Some court_complex) soup =
    map pdf_link_of (List.filter (selects court_complex) soup)
  /\ (forall link,
       selects court_complex link = true <->
       (exists href before c1 c2 c3 after,
          attr_href link = Some href
          /\ href = before ++ 46 :: c1 :: c2 :: c3 :: after
          /\ (c1 = 112 \/ c1 = 80) /\ (c2 = 100 \/ c2 = 68) /\ (c3 = 102 \/ c3 = 70))
       /\ get_text_strip link <> []
       /\ exists before after,
            lower (get_text_strip link) = before ++ lower court_complex ++ after)
  /\ lower s!"TIS HAZARI COURT Judge_B" = s!"tis hazari court judge_b"
  /\ pdf_links_of_soup (Some s!"Tis Hazari Court") mock_soup =
     [ {| name := s!"Tis Hazari Court - Judge A/1";
          url := s!"https://newdelhi.dcourts.gov.in/a/one.pdf";
          judge := s!"Tis Hazari Court - Judge A/1" |};
       {| name := s!"TIS HAZARI COURT Judge_B";
          url := s!"https://newdelhi.dcourts.gov.in/b/two.PDF";
          judge := s!"TIS HAZARI COURT Judge_B" |};
       {| name := s!"Court: tis hazari court (C)";
          url := s!"http://x.org/three.pdf";
          judge := s!"Court: tis hazari court (C)" |} ].
Proof.
  intros Hc. split; [|split; [|split; reflexivity]].
  - rewrite pdf_links_of_soup_kept. f_equal.
    apply filter_ext. intros link. unfold kept, selects, filtered_out.
    destruct court_complex; [contradiction|]. cbn [truthy andb].
    now rewrite negb_involutive, andb_assoc.
  - intros link. unfold selects, href_matches.
    rewrite !andb_true_iff, str_in_spec. split.
    + intros [[Hh Ht] Hs]. split; [|split; [|exact Hs]].
      * destruct (attr_href link) as [href|]; [|discriminate].
        apply pdf_search_spec in Hh as [before [c1 [c2 [c3 [after H]]]]].
        now exists href, before, c1, c2, c3, after.
      * intros E. rewrite E in Ht. discriminate.
    + intros [[href [before [c1 [c2 [c3 [after [-> H]]]]]]] [Ht Hs]].
      split; [split|exact Hs].
      * apply pdf_search_spec. now exists before, c1, c2, c3, after.
      * destruct (get_text_strip link); [contradiction | reflexivity].
Qed.

(** Without a court complex, or with the empty string, every anchor with a
    matching href and some text is kept. *)
Lemma pdf_links_of_soup_unfiltered (court_complex : option str) (soup : list Tag) :
  court_complex = None \/ court_complex = Some [] ->
  pdf_links_of_soup court_complex soup =
    map pdf_link_of
      (List.filter (fun link => href_matches link && truthy (get_text_strip link)) soup).
Proof.
  intros H. rewrite pdf_links_of_soup_kept. f_equal. apply filter_ext.
  intros link. unfold kept. destruct H as [-> | ->]; simpl; now rewrite andb_true_r.
Qed.

End DiscoveryFacts.

Lemma pdf_links_of_soup_spec_witness :
  s!"Tis Hazari Court" <> []
  /\ pdf_links_of_soup (ucd := ucd_ascii) (Some s!"Tis Hazari Court") mock_soup =
       map (pdf_link_of (ucd := ucd_ascii))
         (List.filter (selects (ucd := ucd_ascii) s!"Tis Hazari Court") mock_soup).
Proof.
  split; [discriminate|].
  apply (pdf_links_of_soup_spec s!"Tis Hazari Court" mock_soup). discriminate.
Defined.

(** In [<a href='/x.pdf'><b>Tis</b> Hazari Court</a>] the reader sees
    Tis Hazari Court, which contains the court complex; line 79 strips the
    two text nodes one by one and glues them to TisHazari Court, which does
    not, and the anchor is left out. *)
Lemma nested_anchor_is_left_out :
  spec_visible_text nested_anchor = s!"Tis Hazari Court"
  /\ spec_selects (ucd := ucd_ascii) s!"Tis Hazari Court" nested_anchor = true
  /\ get_text_strip (ucd := ucd_ascii) nested_anchor = s!"TisHazari Court"
  /\ pdf_links_of_soup (ucd := ucd_ascii) (Some s!"Tis Hazari Court") [nested_anchor]
     = [].
Proof. repeat split. Qed.

Example mock_soup_links (u : UnicodeData) :
  pdf_links_of_soup (Some s!"Tis Hazari Court") mock_soup =
    [ {| name := s!"Tis Hazari Court - Judge A/1";
         url := s!"https://newdelhi.dcourts.gov.in/a/one.pdf";
         judge := s!"Tis Hazari Court - Judge A/1" |};
      {| name := s!"TIS HAZARI COURT Judge_B";
         url := s!"https://newdelhi.dcourts.gov.in/b/two.PDF";
         judge := s!"TIS HAZARI COURT Judge_B" |};
      {| name := s!"Court: tis hazari court (C)";
         url := s!"http://x.org/three.pdf";
         judge := s!"Court: tis hazari court (C)" |} ].
Proof. reflexivity. Qed.

(** ** Requests *)

Section ProgramFacts.
Context {ucd : UnicodeData} {env : Environment}.

Lemma safe_request_eq (url : str) (timeout : Z) (w : Process) :
  safe_request url timeout w =
    (match http_get (length (sent w)) url timeout with
     | Returned r => if raises_for_status r then None else Some r
     | ConnectionError | Timeout => None
     end,
     log_request url timeout w).
Proof.
  unfold safe_request, bind, requests_get, ret.
  destruct (http_get (length (sent w)) url timeout) as [| |r]; try reflexivity.
  now destruct (raises_for_status r).
Qed.

(** What [safe_request] returns is never falsy: line 61 and line 101 only
    catch [None]. *)
Lemma safe_request_truthy (url : str) (timeout : Z) (w : Process) (r : Response) :
  fst (safe_request url timeout w) = Some r -> not_response (Some r) = false.
Proof.
  rewrite safe_request_eq. simpl.
  destruct (http_get (length (sent w)) url timeout) as [| |r']; try discriminate.
  destruct (raises_for_status r') eqn:E; [discriminate|].
  intros [= <-]. unfold response_ok. now rewrite E.
Qed.

Lemma accepted_not_raised (r : Response) :
  accepted r = true -> raises_for_status r = false.
Proof.
  unfold accepted, raises_for_status. rewrite andb_true_iff, Z.eqb_eq.
  intros [-> _]. reflexivity.
Qed.

Lemma get_pdf_links_eq (date_obj : date) (court_complex : option str) (w : Process) :
  get_pdf_links_for_court_and_date date_obj court_complex w =
    (match http_get (length (sent w)) DELHI_CAUSELIST_URL 10 with
     | Returned r =>
         if raises_for_status r then []
         else pdf_links_of_soup court_complex (html_parser (content r))
     | ConnectionError | Timeout => []
     end,
     log_request DELHI_CAUSELIST_URL 10 w).
Proof.
  unfold get_pdf_links_for_court_and_date, bind. rewrite safe_request_eq.
  destruct (http_get (length (sent w)) DELHI_CAUSELIST_URL 10) as [| |r];
    try reflexivity.
  unfold not_response, response_ok.
  destruct (raises_for_status r) eqn:E; [reflexivity|].
  unfold not_response, response_ok. now rewrite E.
Qed.

Lemma download_pdf_eq (pdf_url filename : str) (w : Process) :
  download_pdf pdf_url filename w =
    let filepath := os_path_join s!"downloaded_pdfs" filename in
    let w' := log_request pdf_url 20 w in
    match http_get (length (sent w)) pdf_url 20 with
    | Returned r =>
        if accepted r then
          if open_wb filepath
          then (Some filepath,
                {| sent := sent w'; disk := <[filepath := content r]> (disk w') |})
          else (None,
                {| sent := sent w';
                   disk := broken_write filepath (content r) (disk w') |})
        else (None, w')
    | ConnectionError | Timeout => (None, w')
    end.
Proof.
  unfold download_pdf, bind. rewrite safe_request_eq. cbv zeta.
  destruct (http_get (length (sent w)) pdf_url 20) as [| |r]; try reflexivity.
  unfold not_response, response_ok, write_file, ret.
  destruct (raises_for_status r) eqn:Er.
  - destruct (accepted r) eqn:Ea; [|reflexivity].
    apply accepted_not_raised in Ea. congruence.
  - rewrite Er. cbn [negb].
    destruct (accepted r); [|reflexivity].
    destruct (open_wb (os_path_join s!"downloaded_pdfs" filename)); reflexivity.
Qed.

(** ** The single download *)

(** C5: a response whose body has fewer than 1000 bytes, whatever its
    status, makes [download_pdf] return no file path and leave the disk as
    it was, and the link gets no DownloadedFile record. *)
Theorem download_pdf_small_body (pdf_url filename : str) (w : Process)
    (r : Response) :
  http_get (length (sent w)) pdf_url 20 = Returned r ->
  (length (content r) < 1000)%nat ->
  fst (download_pdf pdf_url filename w) = None
  /\ disk (snd (download_pdf pdf_url filename w)) = disk w
  /\ forall court_complex date_str pdf_link,
       url pdf_link = pdf_url ->
       attempt court_complex date_str (length (sent w)) pdf_link = None.
Proof.
  intros Hget Hlen.
  assert (Ha : accepted r = false).
  { unfold accepted. apply andb_false_iff. right. apply Nat.ltb_ge. lia. }
  rewrite download_pdf_eq. cbv zeta. rewrite Hget, Ha. cbn [andb fst snd].
  repeat split.
  intros court_complex date_str pdf_link Hurl.
  unfold attempt. rewrite Hurl, Hget, Ha. reflexivity.
Qed.

(** C9: [download_pdf] returns a file path only for a response with status
    200 and a body of more than 1000 bytes; a body of exactly 1000 bytes is
    rejected, nothing is written and the link gets no record. *)
Theorem download_pdf_threshold (pdf_url filename : str) (w : Process) :
  (forall filepath,
     fst (download_pdf pdf_url filename w) = Some filepath ->
     exists r, http_get (length (sent w)) pdf_url 20 = Returned r
       /\ status_code r = 200%Z /\ (1000 < length (content r))%nat)
  /\ (forall r,
       http_get (length (sent w)) pdf_url 20 = Returned r ->
       length (content r) = 1000%nat ->
       fst (download_pdf pdf_url filename w) = None
       /\ disk (snd (download_pdf pdf_url filename w)) = disk w
       /\ forall court_complex date_str pdf_link,
            url pdf_link = pdf_url ->
            attempt court_complex date_str (length (sent w)) pdf_link = None).
Proof.
  split.
  - intros filepath. rewrite download_pdf_eq. cbv zeta.
    destruct (http_get (length (sent w)) pdf_url 20) as [| |r]; try discriminate.
    destruct (accepted r) eqn:Ea; [|discriminate].
    intros _. exists r. unfold accepted in Ea.
    apply andb_true_iff in Ea as [Hs Hl].
    apply Z.eqb_eq in Hs. apply Nat.ltb_lt in Hl. auto.
  - intros r Hget Hlen.
    assert (Ha : accepted r = false).
    { unfold accepted. rewrite Hlen. apply andb_false_r. }
    rewrite download_pdf_eq. cbv zeta. rewrite Hget, Ha. cbn [andb fst snd].
    repeat split.
    intros court_complex date_str pdf_link Hurl.
    unfold attempt. rewrite Hurl, Hget, Ha. reflexivity.
Qed.

(** A response with status 200 and more than 1000 bytes gives the path
    under the output directory, and the file has the body. *)
Lemma download_pdf_accepts (pdf_url filename : str) (w : Process) (r : Response) :
  http_get (length (sent w)) pdf_url 20 = Returned r ->
  status_code r = 200%Z ->
  (1000 < length (content r))%nat ->
  open_wb (os_path_join s!"downloaded_pdfs" filename) = true ->
  fst (download_pdf pdf_url filename w) =
    Some (os_path_join s!"downloaded_pdfs" filename)
  /\ disk (snd (download_pdf pdf_url filename w))
       !! os_path_join s!"downloaded_pdfs" filename = Some (content r).
Proof.
  intros Hget Hs Hl Ho.
  assert (Ha : accepted r = true).
  { unfold accepted. rewrite Hs. apply Nat.ltb_lt in Hl. now rewrite Hl. }
  rewrite download_pdf_eq. cbv zeta. rewrite Hget, Ha, Ho. cbn [andb fst snd disk].
  split; [reflexivity | apply lookup_insert_eq].
Qed.

(** ** The batch *)

Lemma os_path_join_make_filename (court_complex safe date_str : str) :
  os_path_join s!"downloaded_pdfs" (make_filename court_complex safe date_str) =
    s!"downloaded_pdfs/" ++ make_filename court_complex safe date_str.
Proof. reflexivity. Qed.

Lemma download_pdf_sent (pdf_url filename : str) (w : Process) :
  sent (snd (download_pdf pdf_url filename w)) = sent w ++ [(pdf_url, 20%Z)].
Proof.
  rewrite download_pdf_eq. cbv zeta.
  destruct (http_get (length (sent w)) pdf_url 20) as [| |r]; try reflexivity.
  destruct (accepted r); [|reflexivity].
  destruct (open_wb _); reflexivity.
Qed.

(** One turn of the loop: the record of the link is appended when its
    download went through, and the loop goes on with the next link in
    either case. *)
Lemma download_loop_cons (court_complex date_str : str) (pdf_link : PdfLink)
    (rest : list PdfLink) (downloaded_files : list DownloadedFile) (w : Process) :
  download_loop court_complex date_str (pdf_link :: rest) downloaded_files w =
    download_loop court_complex date_str rest
      (downloaded_files
       ++ option_list (attempt court_complex date_str (length (sent w)) pdf_link))
      (snd (download_pdf (url pdf_link)
              (make_filename court_complex (safe_judge (judge pdf_link)) date_str) w)).
Proof.
  cbn [download_loop]. unfold bind. rewrite download_pdf_eq. cbv zeta.
  unfold attempt.
  destruct (http_get (length (sent w)) (url pdf_link) 20) as [| |r];
    cbn [is_filepath option_list snd]; rewrite ?app_nil_r; try reflexivity.
  destruct (accepted r); cbn [andb is_filepath option_list snd];
    rewrite ?app_nil_r; try reflexivity.
  destruct (open_wb _);
    cbn [is_filepath option_list snd]; rewrite ?app_nil_r; reflexivity.
Qed.

Lemma download_loop_spec (court_complex date_str : str) (pdf_links : list PdfLink)
    (downloaded_files : list DownloadedFile) (w : Process) :
  fst (download_loop court_complex date_str pdf_links downloaded_files w) =
    downloaded_files ++ successes court_complex date_str (length (sent w)) pdf_links
  /\ sent (snd (download_loop court_complex date_str pdf_links downloaded_files w)) =
       sent w ++ map (fun pdf_link => (url pdf_link, 20%Z)) pdf_links.
Proof.
  revert downloaded_files w.
  induction pdf_links as [|pdf_link rest IH]; intros downloaded_files w.
  - cbn. now rewrite !app_nil_r.
  - rewrite download_loop_cons.
    destruct (IH (downloaded_files
                  ++ option_list (attempt court_complex date_str (length (sent w)) pdf_link))
                 (snd (download_pdf (url pdf_link)
                         (make_filename court_complex (safe_judge (judge pdf_link))
                            date_str) w))) as [-> ->].
    rewrite download_pdf_sent, length_app, Nat.add_1_r.
    cbn [successes map length]. rewrite <- !app_assoc. split; reflexivity.
Qed.

(** C6: whatever happens to the single downloads, every link is requested
    once, in link order, after the page; the function returns the records
    of the links whose download went through, in link order, and nothing
    for the others. *)
Theorem download_all_judges_pdfs_batch (date_obj : date) (court_complex : str)
    (w : Process) :
  let pdf_links :=
    fst (get_pdf_links_for_court_and_date date_obj (Some court_complex) w) in
  fst (download_all_judges_pdfs date_obj court_complex w) =
    successes court_complex (strftime_dmY date_obj) (S (length (sent w))) pdf_links
  /\ sent (snd (download_all_judges_pdfs date_obj court_complex w)) =
       sent w ++ (DELHI_CAUSELIST_URL, 10%Z)
              :: map (fun pdf_link => (url pdf_link, 20%Z)) pdf_links.
Proof.
  cbv zeta. unfold download_all_judges_pdfs, bind.
  destruct (get_pdf_links_for_court_and_date date_obj (Some court_complex) w)
    as [pdf_links w1] eqn:E.
  assert (Hw1 : sent w1 = sent w ++ [(DELHI_CAUSELIST_URL, 10%Z)]).
  { rewrite get_pdf_links_eq in E. injection E as _ <-. reflexivity. }
  cbn [fst snd]. destruct pdf_links as [|pdf_link rest].
  - cbn. now rewrite Hw1.
  - cbn [truthy negb].
    destruct (download_loop_spec court_complex (strftime_dmY date_obj)
                (pdf_link :: rest) [] w1) as [-> ->].
    rewrite Hw1, length_app, Nat.add_1_r, <- app_assoc. split; reflexivity.
Qed.

(** A record is in the batch exactly when it is the record of some link,
    tried on the request of its position. *)
Lemma In_successes (court_complex date_str : str) (n : nat)
    (pdf_links : list PdfLink) (file : DownloadedFile) :
  In file (successes court_complex date_str n pdf_links) <->
  exists i pdf_link,
    pdf_links !! i = Some pdf_link
    /\ attempt court_complex date_str (n + i) pdf_link = Some file.
Proof.
  revert n. induction pdf_links as [|pdf_link rest IH]; intros n; cbn [successes].
  - split; [intros [] | intros [i [l [H _]]]; discriminate].
  - rewrite in_app_iff, IH. split.
    + intros [H | [i [l [Hi Ha]]]].
      * exists O, pdf_link. rewrite Nat.add_0_r. split; [reflexivity|].
        destruct (attempt court_complex date_str n pdf_link); simpl in H;
          intuition congruence.
      * exists (S i), l. rewrite Nat.add_succ_r. auto.
    + intros [[|i] [l [Hi Ha]]].
      * left. injection Hi as <-. rewrite Nat.add_0_r in Ha. rewrite Ha. now left.
      * right. exists i, l. rewrite Nat.add_succ_r in Ha. auto.
Qed.

(** ** File names *)

Lemma attempt_Some (court_complex date_str : str) (n : nat) (pdf_link : PdfLink)
    (file : DownloadedFile) :
  attempt court_complex date_str n pdf_link = Some file ->
  df_judge file = judge pdf_link
  /\ df_filename file =
       make_filename court_complex (safe_judge (judge pdf_link)) date_str
  /\ df_filepath file = s!"downloaded_pdfs/" ++ df_filename file.
Proof.
  unfold attempt.
  destruct (http_get n (url pdf_link) 20) as [| |r]; try discriminate.
  destruct (accepted r && open_wb _); [|discriminate].
  intros [= <-]. cbn [df_judge df_filename df_filepath].
  now rewrite os_path_join_make_filename.
Qed.

(** Every record of a run is the record of some link on some request. *)
Lemma download_all_judges_pdfs_In (date_obj : date) (court_complex : str)
    (w : Process) (file : DownloadedFile) :
  In file (fst (download_all_judges_pdfs date_obj court_complex w)) ->
  exists n pdf_link,
    attempt court_complex (strftime_dmY date_obj) n pdf_link = Some file.
Proof.
  unfold download_all_judges_pdfs, bind.
  destruct (get_pdf_links_for_court_and_date date_obj (Some court_complex) w)
    as [pdf_links w1].
  destruct (negb (truthy pdf_links)); [intros []|].
  destruct (download_loop_spec court_complex (strftime_dmY date_obj)
              pdf_links [] w1) as [-> _].
  cbn [app]. intros H. apply In_successes in H as [i [pdf_link [_ H]]]. eauto.
Qed.

(** C1, amended: every DownloadedFile record is named
    CauseList_{court_complex}_{sanitized judge, at most 40 characters}_{DD-MM-YYYY}.pdf,
    where court_complex is the selected display name as it is, and its path
    is that name under downloaded_pdfs; on the mocked page, "Tis Hazari
    Court" with 05-04-2025 and three successful downloads gives exactly
    three records. *)
Theorem download_all_judges_pdfs_filenames (date_obj : date) (court_complex : str)
    (w : Process) :
  Forall
    (fun file =>
       df_filename file =
         s!"CauseList_" ++ court_complex ++ s!"_" ++ safe_judge (df_judge file)
         ++ s!"_" ++ strftime_dmY date_obj ++ s!".pdf"
       /\ df_filepath file = s!"downloaded_pdfs/" ++ df_filename file)
    (fst (download_all_judges_pdfs date_obj court_complex w))
  /\ map df_filename
       (fst (download_all_judges_pdfs (env := mock_site) april_5_2025
               s!"Tis Hazari Court" fresh_process)) =
     [ s!"CauseList_Tis Hazari Court_Tis Hazari Court - Judge A1_05-04-2025.pdf";
       s!"CauseList_Tis Hazari Court_TIS HAZARI COURT Judge_B_05-04-2025.pdf";
       s!"CauseList_Tis Hazari Court_Court tis hazari court C_05-04-2025.pdf" ].
Proof.
  split; [|vm_compute; reflexivity].
  apply List.Forall_forall. intros file H.
  apply download_all_judges_pdfs_In in H as [n [pdf_link H]].
  apply attempt_Some in H as [Hj [Hn Hp]].
  split; [|exact Hp]. rewrite Hn, Hj. reflexivity.
Qed.

(** ** Where the files go *)

Lemma digit_is_digit (n : nat) : is_digit_or_hyphen (digit n) = true.
Proof.
  unfold is_digit_or_hyphen, digit, ascii_isdigit.
  pose proof (Nat.mod_upper_bound n 10).
  apply orb_true_iff. left. apply andb_true_iff.
  split; apply N.leb_le; lia.
Qed.

Lemma decimal_fuel_digits (fuel n : nat) :
  forallb is_digit_or_hyphen (decimal_fuel fuel n) = true.
Proof.
  revert n. induction fuel as [|fuel IH]; intros n; cbn [decimal_fuel]; [reflexivity|].
  destruct (n <? 10)%nat.
  - cbn [forallb]. now rewrite digit_is_digit.
  - rewrite forallb_app, IH. cbn [forallb]. now rewrite digit_is_digit.
Qed.

Lemma zero_pad_digits (width : nat) (s : str) :
  forallb is_digit_or_hyphen s = true ->
  forallb is_digit_or_hyphen (zero_pad width s) = true.
Proof.
  intros H. unfold zero_pad. rewrite forallb_app, H, andb_true_r.
  induction (width - length s)%nat as [|k IH]; [reflexivity|exact IH].
Qed.

(** The date string has digits and hyphens only. *)
Lemma strftime_dmY_chars (d : date) :
  forallb is_digit_or_hyphen (strftime_dmY d) = true.
Proof.
  unfold strftime_dmY, decimal.
  rewrite !forallb_app, !zero_pad_digits, decimal_fuel_digits
    by apply decimal_fuel_digits.
  reflexivity.
Qed.

Lemma strftime_dmY_no_slash (d : date) : ~ In 47 (strftime_dmY d).
Proof.
  intros H. pose proof (strftime_dmY_chars d) as Hall.
  rewrite forallb_forall in Hall. apply Hall in H. discriminate H.
Qed.

Lemma DELHI_COURTS_keys_no_slash (court_complex : str) :
  In court_complex DELHI_COURTS_keys -> ~ In 47 court_complex.
Proof.
  intros H.
  assert (Hall : forallb (fun k : str => forallb (fun c => negb (c =? 47)) k)
                   DELHI_COURTS_keys = true) by reflexivity.
  rewrite forallb_forall in Hall. apply Hall in H.
  rewrite forallb_forall in H. intros Hc. apply H in Hc. discriminate Hc.
Qed.

Lemma make_filename_no_slash (court_complex judge_name : str) (d : date) :
  ~ In 47 court_complex ->
  ~ In 47 (make_filename court_complex (safe_judge judge_name) (strftime_dmY d)).
Proof.
  intros Hc H. unfold make_filename in H. rewrite !in_app_iff in H.
  destruct H as [H|[H|[H|[H|[H|[H|H]]]]]].
  - vm_compute in H. intuition discriminate.
  - contradiction.
  - vm_compute in H. intuition discriminate.
  - revert H. apply safe_judge_no_path_char. cbn. tauto.
  - vm_compute in H. intuition discriminate.
  - revert H. apply strftime_dmY_no_slash.
  - vm_compute in H. intuition discriminate.
Qed.

(** [download_pdf] touches the disk at the joined path only. *)
Lemma download_pdf_disk (pdf_url filename path : str) (w : Process) :
  disk (snd (download_pdf pdf_url filename w)) !! path <> disk w !! path ->
  path = os_path_join s!"downloaded_pdfs" filename.
Proof.
  rewrite download_pdf_eq. cbv zeta.
  destruct (http_get (length (sent w)) pdf_url 20) as [| |r];
    cbn [snd disk log_request]; try congruence.
  destruct (accepted r); cbn [snd disk log_request]; [|congruence].
  intros H. destruct (decide (os_path_join s!"downloaded_pdfs" filename = path))
    as [<-|Hne]; [reflexivity|]. exfalso. apply H. clear H.
  destruct (open_wb _); cbn [snd disk log_request].
  - now rewrite lookup_insert_ne.
  - unfold broken_write. destruct (write_breaks _ _); [|reflexivity].
    now rewrite lookup_insert_ne.
Qed.

(** The loop touches the disk at the paths of its links only. *)
Lemma download_loop_disk (court_complex date_str : str) (pdf_links : list PdfLink)
    (downloaded_files : list DownloadedFile) (w : Process) (path : str) :
  disk (snd (download_loop court_complex date_str pdf_links downloaded_files w))
    !! path <> disk w !! path ->
  exists pdf_link,
    In pdf_link pdf_links
    /\ path = s!"downloaded_pdfs/"
              ++ make_filename court_complex (safe_judge (judge pdf_link)) date_str.
Proof.
  revert downloaded_files w.
  induction pdf_links as [|pdf_link rest IH]; intros downloaded_files w.
  - cbn. congruence.
  - rewrite download_loop_cons. intros H.
    set (w1 := snd (download_pdf (url pdf_link)
                 (make_filename court_complex (safe_judge (judge pdf_link)) date_str)
                 w)) in *.
    destruct (decide (disk w1 !! path = disk w !! path)) as [Heq|Hne].
    + rewrite <- Heq in H. apply IH in H as [l [Hl Hp]].
      exists l. split; [now right | exact Hp].
    + apply download_pdf_disk in Hne. rewrite os_path_join_make_filename in Hne.
      exists pdf_link. split; [now left | exact Hne].
Qed.

(** C10: for a court complex of the selector and whatever the judge label,
    the sanitized label has no dot, slash or backslash, the composed file
    name has no slash and is joined to downloaded_pdfs as one component,
    and a run changes the disk only at such paths. *)
Theorem download_stays_in_output_dir (date_obj : date) (court_complex : str)
    (w : Process) :
  In court_complex DELHI_COURTS_keys ->
  (forall judge_name,
     ~ In 46 (safe_judge judge_name) /\ ~ In 47 (safe_judge judge_name)
     /\ ~ In 92 (safe_judge judge_name)
     /\ ~ In 47 (make_filename court_complex (safe_judge judge_name)
                   (strftime_dmY date_obj))
     /\ os_path_join s!"downloaded_pdfs"
          (make_filename court_complex (safe_judge judge_name) (strftime_dmY date_obj))
        = s!"downloaded_pdfs/"
          ++ make_filename court_complex (safe_judge judge_name) (strftime_dmY date_obj))
  /\ (forall path,
       disk (snd (download_all_judges_pdfs date_obj court_complex w)) !! path
         <> disk w !! path ->
       exists filename, path = s!"downloaded_pdfs/" ++ filename /\ ~ In 47 filename).
Proof.
  intros Hcourt. apply DELHI_COURTS_keys_no_slash in Hcourt. split.
  - intros judge_name.
    repeat split; try (apply safe_judge_no_path_char; cbn; tauto).
    now apply make_filename_no_slash.
  - intros path. unfold download_all_judges_pdfs, bind.
    destruct (get_pdf_links_for_court_and_date date_obj (Some court_complex) w)
      as [pdf_links w1] eqn:E.
    assert (Hd : disk w1 = disk w).
    { rewrite get_pdf_links_eq in E. injection E as _ <-. reflexivity. }
    destruct (negb (truthy pdf_links)).
    + cbn [ret snd]. rewrite Hd. congruence.
    + rewrite <- Hd. intros H. apply download_loop_disk in H as [l [_ ->]].
      eexists. split; [reflexivity|]. now apply make_filename_no_slash.
Qed.

(** ** The page fetch *)

(** C7, amended: when the fetch of the cause-list page fails with a
    transport error, a timeout or a 4xx or 5xx status, Link Discovery
    returns the empty list. *)
Theorem get_pdf_links_fetch_failure (date_obj : date) (court_complex : option str)
    (w : Process) :
  http_get (length (sent w)) DELHI_CAUSELIST_URL 10 = ConnectionError
  \/ http_get (length (sent w)) DELHI_CAUSELIST_URL 10 = Timeout
  \/ (exists r, http_get (length (sent w)) DELHI_CAUSELIST_URL 10 = Returned r
        /\ (400 <= status_code r < 600)%Z) ->
  fst (get_pdf_links_for_court_and_date date_obj court_complex w) = [].
Proof.
  rewrite get_pdf_links_eq. cbn [fst].
  intros [-> | [-> | [r [-> Hr]]]]; try reflexivity.
  assert (E : raises_for_status r = true).
  { unfold raises_for_status. apply andb_true_iff. split; [apply Z.leb_le | apply Z.ltb_lt]; lia. }
  now rewrite E.
Qed.

(** With any other status the page is parsed like a success. *)
Lemma get_pdf_links_returned (date_obj : date) (court_complex : option str)
    (w : Process) (r : Response) :
  http_get (length (sent w)) DELHI_CAUSELIST_URL 10 = Returned r ->
  raises_for_status r = false ->
  fst (get_pdf_links_for_court_and_date date_obj court_complex w) =
    pdf_links_of_soup court_complex (html_parser (content r)).
Proof. intros H E. rewrite get_pdf_links_eq, H, E. reflexivity. Qed.

(** C8: Link Discovery does not depend on the date: for two dates it
    returns the same links and leaves the same process state, and the one
    request it sends is for the fixed URL. *)
Theorem get_pdf_links_date_independent (d1 d2 : date) (court_complex : option str)
    (w : Process) :
  get_pdf_links_for_court_and_date d1 court_complex w =
    get_pdf_links_for_court_and_date d2 court_complex w
  /\ sent (snd (get_pdf_links_for_court_and_date d1 court_complex w)) =
       sent w ++ [(DELHI_CAUSELIST_URL, 10%Z)].
Proof.
  split.
  - reflexivity.
  - rewrite get_pdf_links_eq. reflexivity.
Qed.

End ProgramFacts.

Lemma download_pdf_small_body_witness :
  http_get (Environment := mock_site_pdf 404 999) (length (sent fresh_process))
      s!"https://newdelhi.dcourts.gov.in/a/one.pdf" 20 =
    mock_response 404 (body_of_size 999)
  /\ (length (body_of_size 999) < 1000)%nat
  /\ fst (download_pdf (env := mock_site_pdf 404 999)
            s!"https://newdelhi.dcourts.gov.in/a/one.pdf" s!"one.pdf" fresh_process)
       = None.
Proof.
  assert (Hlen : (length (body_of_size 999) < 1000)%nat).
  { apply Nat.ltb_lt. vm_compute. reflexivity. }
  split; [reflexivity | split; [exact Hlen|]].
  apply (download_pdf_small_body (ucd := ucd_ascii) (env := mock_site_pdf 404 999)
           s!"https://newdelhi.dcourts.gov.in/a/one.pdf" s!"one.pdf" fresh_process
           {| status_code := 404; content := body_of_size 999 |});
    [reflexivity | exact Hlen].
Defined.

(** A body of exactly 1000 bytes with status 200 is rejected; one more byte
    and it is accepted. *)
Lemma download_pdf_threshold_witness :
  fst (download_pdf (env := mock_site_pdf 200 1000)
         s!"https://newdelhi.dcourts.gov.in/a/one.pdf" s!"one.pdf" fresh_process)
    = None
  /\ fst (download_pdf (env := mock_site_pdf 200 1001)
            s!"https://newdelhi.dcourts.gov.in/a/one.pdf" s!"one.pdf" fresh_process)
       = Some s!"downloaded_pdfs/one.pdf".
Proof.
  split.
  - apply (proj2 (download_pdf_threshold (ucd := ucd_ascii)
                    (env := mock_site_pdf 200 1000)
                    s!"https://newdelhi.dcourts.gov.in/a/one.pdf" s!"one.pdf"
                    fresh_process)
             {| status_code := 200; content := body_of_size 1000 |});
      vm_compute; reflexivity.
  - vm_compute. reflexivity.
Defined.

(** A page that comes with status 300 is outside 200-299 and is parsed all
    the same: Link Discovery returns its three links.  ([requests] follows
    the redirects 301, 302, 303, 307 and 308 only; [raise_for_status] lets
    every status below 400 through.) *)
Lemma get_pdf_links_status_300 :
  non_2xx {| status_code := 300; content := mock_html |} = true
  /\ http_get (Environment := mock_site_page (mock_response 300 mock_html))
       (length (sent fresh_process)) DELHI_CAUSELIST_URL 10 =
     Returned {| status_code := 300; content := mock_html |}
  /\ length (fst (get_pdf_links_for_court_and_date (ucd := ucd_ascii)
                   (env := mock_site_page (mock_response 300 mock_html))
                   april_5_2025 (Some s!"Tis Hazari Court") fresh_process)) = 3%nat.
Proof. repeat split. Qed.

Lemma get_pdf_links_fetch_failure_witness :
  (http_get (Environment := mock_site_page (mock_response 503 mock_html))
       (length (sent fresh_process)) DELHI_CAUSELIST_URL 10 = ConnectionError
   \/ http_get (Environment := mock_site_page (mock_response 503 mock_html))
       (length (sent fresh_process)) DELHI_CAUSELIST_URL 10 = Timeout
   \/ (exists r,
         http_get (Environment := mock_site_page (mock_response 503 mock_html))
           (length (sent fresh_process)) DELHI_CAUSELIST_URL 10 = Returned r
         /\ (400 <= status_code r < 600)%Z))
  /\ fst (get_pdf_links_for_court_and_date (ucd := ucd_ascii)
            (env := mock_site_page (mock_response 503 mock_html))
            april_5_2025 (Some s!"Tis Hazari Court") fresh_process) = [].
Proof.
  assert (H : exists r,
         http_get (Environment := mock_site_page (mock_response 503 mock_html))
           (length (sent fresh_process)) DELHI_CAUSELIST_URL 10 = Returned r
         /\ (400 <= status_code r < 600)%Z).
  { exists {| status_code := 503; content := mock_html |}.
    split; [reflexivity | simpl; lia]. }
  split; [right; right; exact H|].
  apply (get_pdf_links_fetch_failure (ucd := ucd_ascii)
           (env := mock_site_page (mock_response 503 mock_html))).
  right; right; exact H.
Defined.

(** The selector offers "Tis Hazari Court", whose slug is tis-hazari; the
    three files of the mocked run carry the display name, not the slug. *)
Lemma filename_has_display_name :
  In s!"Tis Hazari Court" DELHI_COURTS_keys
  /\ DELHI_COURTS_get s!"Tis Hazari Court" = Some s!"tis-hazari"
  /\ map df_filename
       (fst (download_all_judges_pdfs (ucd := ucd_ascii) (env := mock_site)
               april_5_2025 s!"Tis Hazari Court" fresh_process)) =
     [ s!"CauseList_Tis Hazari Court_Tis Hazari Court - Judge A1_05-04-2025.pdf";
       s!"CauseList_Tis Hazari Court_TIS HAZARI COURT Judge_B_05-04-2025.pdf";
       s!"CauseList_Tis Hazari Court_Court tis hazari court C_05-04-2025.pdf" ]
  /\ map (fun file =>
            spec_filename s!"Tis Hazari Court"
              (safe_judge (ucd := ucd_ascii) (df_judge file)) s!"05-04-2025")
       (fst (download_all_judges_pdfs (ucd := ucd_ascii) (env := mock_site)
               april_5_2025 s!"Tis Hazari Court" fresh_process)) =
     [ s!"CauseList_tis-hazari_Tis Hazari Court - Judge A1_05-04-2025.pdf";
       s!"CauseList_tis-hazari_TIS HAZARI COURT Judge_B_05-04-2025.pdf";
       s!"CauseList_tis-hazari_Court tis hazari court C_05-04-2025.pdf" ].
Proof.
  split; [cbn; tauto|]. repeat split; vm_compute; reflexivity.
Qed.

Lemma download_stays_in_output_dir_witness :
  In s!"Tis Hazari Court" DELHI_COURTS_keys
  /\ forall path,
       disk (snd (download_all_judges_pdfs (ucd := ucd_ascii) (env := mock_site)
                    april_5_2025 s!"Tis Hazari Court" fresh_process)) !! path
         <> disk fresh_process !! path ->
       exists filename, path = s!"downloaded_pdfs/" ++ filename /\ ~ In 47 filename.
Proof.
  assert (H : In s!"Tis Hazari Court" DELHI_COURTS_keys) by (cbn; tauto).
  split; [exact H|].
  apply (proj2 (download_stays_in_output_dir (ucd := ucd_ascii) (env := mock_site)
                  april_5_2025 s!"Tis Hazari Court" fresh_process H)).
Defined.

(** The three files of the mocked run are on the disk afterwards. *)
Example mock_run_disk :
  map (fun path =>
         length <$>
           disk (snd (download_all_judges_pdfs (ucd := ucd_ascii) (env := mock_site)
                        april_5_2025 s!"Tis Hazari Court" fresh_process)) !! path)
    [ s!"downloaded_pdfs/CauseList_Tis Hazari Court_Tis Hazari Court - Judge A1_05-04-2025.pdf";
      s!"downloaded_pdfs/CauseList_Tis Hazari Court_TIS HAZARI COURT Judge_B_05-04-2025.pdf";
      s!"downloaded_pdfs/CauseList_Tis Hazari Court_Court tis hazari court C_05-04-2025.pdf";
      s!"downloaded_pdfs/CauseList_tis-hazari_Court tis hazari court C_05-04-2025.pdf" ]
  = [Some 2048%nat; Some 2048%nat; Some 2048%nat; None].
Proof. vm_compute. reflexivity. Qed.

(** A time-out in the middle of the batch: the third link is still
    requested, and the first and the third file are returned. *)
Example mock_run_flaky :
  map df_judge
    (fst (download_all_judges_pdfs (ucd := ucd_ascii) (env := mock_site_flaky)
            april_5_2025 s!"Tis Hazari Court" fresh_process)) =
    [ s!"Tis Hazari Court - Judge A/1"; s!"Court: tis hazari court (C)" ]
  /\ map fst
       (sent (snd (download_all_judges_pdfs (ucd := ucd_ascii) (env := mock_site_flaky)
                     april_5_2025 s!"Tis Hazari Court" fresh_process))) =
     [ DELHI_CAUSELIST_URL;
       s!"https://newdelhi.dcourts.gov.in/a/one.pdf";
       s!"https://newdelhi.dcourts.gov.in/b/two.PDF";
       s!"http://x.org/three.pdf" ].
Proof. split; vm_compute; reflexivity. Qed.

(** * More of the script *)

(** ** Stripping *)

Lemma filter_all {A} (f : A -> bool) (l : list A) :
  (forall x, In x l -> f x = true) -> List.filter f l = l.
Proof.
  induction l as [|a l IH]; intros H; cbn [List.filter]; [reflexivity|].
  rewrite (H a) by now left. f_equal. apply IH. intros x Hx. apply H. now right.
Qed.



Section StripFacts.
Context {ucd : UnicodeData}.

Lemma lstrip_keeps (before after : str) (x : N) :
  Py_UNICODE_ISSPACE x = false ->
  exists before', lstrip (before ++ x :: after) = before' ++ x :: after.
Proof.
  intros Hx. induction before as [|c before IH]; cbn [app lstrip].
  - rewrite Hx. now exists [].
  - destruct (Py_UNICODE_ISSPACE c); [exact IH|]. now exists (c :: before).
Qed.

Lemma rstrip_keeps (before after : str) (x : N) :
  Py_UNICODE_ISSPACE x = false ->
  exists after', rstrip (before ++ x :: after) = before ++ x :: after'.
Proof.
  intros Hx. unfold rstrip.
  rewrite rev_app_distr. cbn [rev]. rewrite <- app_assoc. cbn [app].
  destruct (lstrip_keeps (rev after) (rev before) x Hx) as [a' ->].
  exists (rev a'). rewrite rev_app_distr. cbn [rev].
  now rewrite rev_involutive, <- app_assoc.
Qed.

Lemma lstrip_idempotent (s : str) : lstrip (lstrip s) = lstrip s.
Proof.
  induction s as [|c s IH]; cbn [lstrip]; [reflexivity|].
  destruct (Py_UNICODE_ISSPACE c) eqn:E; [exact IH|]. cbn [lstrip]. now rewrite E.
Qed.

Lemma lstrip_fixed_app (a b : str) :
  a <> [] -> lstrip a = a -> lstrip (a ++ b) = a ++ b.
Proof.
  destruct a as [|c a]; [contradiction|]. intros _. cbn [app lstrip].
  destruct (Py_UNICODE_ISSPACE c) eqn:E; [|reflexivity].
  intros H. exfalso.
  assert (Hl : (length (lstrip a) <= length a)%nat).
  { clear. induction a as [|x a IH]; cbn [lstrip]; [lia|].
    destruct (Py_UNICODE_ISSPACE x); cbn [length]; lia. }
  rewrite H in Hl. cbn [length] in Hl. lia.
Qed.

Lemma rstrip_fixed_rev (s : str) : rstrip s = s -> lstrip (rev s) = rev s.
Proof.
  unfold rstrip. intros H. rewrite <- H at 2. now rewrite rev_involutive.
Qed.

Lemma stripped_strip (s : str) : stripped (strip s).
Proof.
  unfold stripped, strip. split.
  - destruct (lstrip s) as [|c t] eqn:E; [reflexivity|].
    assert (Hc : Py_UNICODE_ISSPACE c = false).
    { pose proof (lstrip_idempotent s) as H. rewrite E in H. cbn [lstrip] in H.
      destruct (Py_UNICODE_ISSPACE c) eqn:Ec; [|reflexivity]. exfalso.
      assert (Hl : (length (lstrip t) <= length t)%nat).
      { clear. induction t as [|x a IH]; cbn [lstrip]; [lia|].
        destruct (Py_UNICODE_ISSPACE x); cbn [length]; lia. }
      rewrite H in Hl. cbn [length] in Hl. lia. }
    destruct (rstrip_keeps [] t c Hc) as [t' Ht]. cbn [app] in Ht.
    rewrite Ht. cbn [lstrip]. now rewrite Hc.
  - unfold rstrip. now rewrite rev_involutive, lstrip_idempotent.
Qed.

Lemma stripped_app (a b : str) :
  a <> [] -> b <> [] -> stripped a -> stripped b -> stripped (a ++ b).
Proof.
  intros Ha Hb [Hla _] [_ Hrb]. split.
  - now apply lstrip_fixed_app.
  - unfold rstrip. rewrite rev_app_distr.
    rewrite lstrip_fixed_app.
    + now rewrite <- rev_app_distr, rev_involutive.
    + intros H. apply (f_equal (@rev N)) in H. rewrite rev_involutive in H.
      now apply Hb.
    + now apply rstrip_fixed_rev.
Qed.

Lemma stripped_concat (pieces : list str) :
  Forall (fun p => p <> [] /\ stripped p) pieces -> stripped (concat pieces).
Proof.
  induction 1 as [|p pieces [Hp Hs] Hrest IH]; cbn [concat]; [now split|].
  destruct (concat pieces) as [|c t] eqn:E.
  - now rewrite app_nil_r.
  - rewrite <- E in *. apply stripped_app; auto. rewrite E. discriminate.
Qed.

(** The text of a tag has no white space at either end. *)
Lemma get_text_strip_stripped (link : Tag) : stripped (get_text_strip link).
Proof.
  unfold get_text_strip. apply stripped_concat, List.Forall_forall.
  intros p Hp. apply filter_In in Hp as [Hp Ht].
  apply in_map_iff in Hp as [q [<- _]]. split.
  - now destruct (strip q).
  - apply stripped_strip.
Qed.

Lemma stripped_strip_id (s : str) : stripped s -> strip s = s.
Proof. intros [Hl Hr]. unfold strip. now rewrite Hl. Qed.


End StripFacts.

(** ** The links that are discovered *)

Lemma sublist_map_filter {A B} (h : A -> B) (f g : A -> bool) (l : list A) :
  (forall x, f x = true -> g x = true) ->
  sublist (map h (List.filter f l)) (map h (List.filter g l)).
Proof.
  intros Hfg. induction l as [|a l IH]; cbn [List.filter map]; [constructor|].
  destruct (f a) eqn:Ef.
  - rewrite (Hfg a Ef). cbn [map]. now constructor.
  - destruct (g a); cbn [map]; [now constructor | exact IH].
Qed.

Section LinkFacts.
Context {ucd : UnicodeData}.



(** X2: without a court complex, or with the empty string, no anchor is
    filtered by its text: every anchor with a matching href and some text
    is returned; and what a court complex selects is a sublist of that. *)
Theorem pdf_links_without_court (court_complex : option str) (soup : list Tag) :
  court_complex = None \/ court_complex = Some [] ->
  pdf_links_of_soup court_complex soup =
    map pdf_link_of
      (List.filter (fun link => href_matches link && truthy (get_text_strip link)) soup)
  /\ forall court, sublist (pdf_links_of_soup court soup)
                     (pdf_links_of_soup court_complex soup).
Proof.
  intros H.
  assert (E : forall link, kept court_complex link = truthy (get_text_strip link)).
  { intros link. unfold kept.
    destruct H as [-> | ->]; cbn [filtered_out truthy andb negb];
      now rewrite andb_true_r. }
  split.
  - rewrite pdf_links_of_soup_kept. f_equal. apply filter_ext.
    intros link. now rewrite E.
  - intros court. rewrite !pdf_links_of_soup_kept. apply sublist_map_filter.
    intros link. rewrite !andb_true_iff, E. unfold kept.
    rewrite andb_true_iff. tauto.
Qed.

Lemma lower_from_app (before s rest : str) :
  exists low, lower_from before (s ++ rest) = low ++ lower_from (rev s ++ before) rest.
Proof.
  revert before. induction s as [|c s IH]; intros before.
  - now exists [].
  - cbn [app lower_from rev]. destruct (IH (c :: before)) as [low ->].
    exists ((if c <? 128 then [ascii_tolower c]
             else uni_tolower_full before c (s ++ rest)) ++ low).
    rewrite <- (app_assoc (rev s) [c] before). cbn [app]. now rewrite app_assoc.
Qed.

Lemma lower_from_ascii (before s rest : str) :
  is_ascii s ->
  lower_from before (s ++ rest) =
    map ascii_tolower s ++ lower_from (rev s ++ before) rest.
Proof.
  intros H. revert before. induction H as [|c s Hc _ IH]; intros before.
  - reflexivity.
  - cbn [app lower_from rev map]. apply N.ltb_lt in Hc. rewrite Hc.
    rewrite IH. cbn [app]. now rewrite <- app_assoc.
Qed.

Lemma lower_ascii (s : str) : is_ascii s -> lower s = map ascii_tolower s.
Proof.
  intros H. unfold lower. rewrite <- (app_nil_r s) at 1.
  rewrite lower_from_ascii by exact H. cbn [lower_from]. apply app_nil_r.
Qed.

(** X3: for an ASCII court-complex string, the filter of line 82 lets an
    anchor text through whenever the string occurs in it in some mix of
    upper and lower case, whatever surrounds the occurrence. *)
Theorem ascii_court_is_found (court_complex occurrence before after : str) :
  is_ascii court_complex ->
  is_ascii occurrence ->
  map ascii_tolower occurrence = map ascii_tolower court_complex ->
  filtered_out (Some court_complex) (before ++ occurrence ++ after) = false.
Proof.
  intros Hc Ho Heq. cbn [filtered_out].
  apply andb_false_iff. right. apply negb_false_iff.
  apply str_in_spec. rewrite (lower_ascii court_complex Hc). unfold lower.
  destruct (lower_from_app [] before (occurrence ++ after)) as [low ->].
  rewrite lower_from_ascii by exact Ho. rewrite Heq. eauto.
Qed.

(** X4: sanitizing twice is sanitizing once, and a label of at most 40
    characters that are all alphanumeric, underscore, white space or hyphen
    is its own sanitized form. *)
Theorem safe_judge_idempotent (judge_name : str) :
  safe_judge (safe_judge judge_name) = safe_judge judge_name
  /\ ((length judge_name <= 40)%nat ->
      (forall c, In c judge_name -> re_unsafe c = false) ->
      safe_judge judge_name = judge_name).
Proof.
  assert (Hfix : forall s, (length s <= 40)%nat ->
                   (forall c, In c s -> re_unsafe c = false) -> safe_judge s = s).
  { intros s Hl Hs. unfold safe_judge. rewrite re_sub_unsafe_filter.
    rewrite filter_all.
    - now apply take_ge.
    - intros c Hc. now rewrite (Hs c Hc). }
  split; [|apply Hfix].
  apply Hfix; [apply safe_judge_length|].
  intros c Hc. now apply In_safe_judge in Hc.
Qed.

End LinkFacts.

Lemma pdf_links_without_court_witness :
  (@None str = None \/ @None str = Some [])
  /\ length (pdf_links_of_soup (ucd := ucd_ascii) None mock_soup) = 5%nat.
Proof.
  split; [now left|].
  rewrite (proj1 (pdf_links_without_court (ucd := ucd_ascii) None mock_soup
                    (or_introl eq_refl))).
  reflexivity.
Defined.

Lemma ascii_court_is_found_witness :
  is_ascii s!"Tis Hazari Court"
  /\ is_ascii s!"TIS HAZARI COURT"
  /\ map ascii_tolower s!"TIS HAZARI COURT" = map ascii_tolower s!"Tis Hazari Court"
  /\ filtered_out (ucd := ucd_ascii) (Some s!"Tis Hazari Court")
       (s!"Hon. " ++ s!"TIS HAZARI COURT" ++ s!" Judge_B") = false.
Proof.
  assert (H1 : is_ascii s!"Tis Hazari Court").
  { apply List.Forall_forall. intros c Hc. vm_compute in Hc.
    repeat (destruct Hc as [<-|Hc]; [reflexivity|]). destruct Hc. }
  assert (H2 : is_ascii s!"TIS HAZARI COURT").
  { apply List.Forall_forall. intros c Hc. vm_compute in Hc.
    repeat (destruct Hc as [<-|Hc]; [reflexivity|]). destruct Hc. }
  assert (H3 : map ascii_tolower s!"TIS HAZARI COURT"
               = map ascii_tolower s!"Tis Hazari Court") by reflexivity.
  split; [exact H1 | split; [exact H2 | split; [exact H3|]]].
  exact (ascii_court_is_found (ucd := ucd_ascii) s!"Tis Hazari Court"
           s!"TIS HAZARI COURT" s!"Hon. " s!" Judge_B" H1 H2 H3).
Defined.

(** ** What a run does to the disk *)

Section RunFacts.
Context {ucd : UnicodeData} {env : Environment}.

Lemma download_all_judges_pdfs_eq (date_obj : date) (court_complex : str)
    (w : Process) :
  download_all_judges_pdfs date_obj court_complex w =
    match fst (get_pdf_links_for_court_and_date date_obj (Some court_complex) w) with
    | [] => ([], log_request DELHI_CAUSELIST_URL 10 w)
    | pdf_links =>
        download_loop court_complex (strftime_dmY date_obj) pdf_links []
          (log_request DELHI_CAUSELIST_URL 10 w)
    end.
Proof.
  unfold download_all_judges_pdfs, bind. rewrite get_pdf_links_eq. cbn [fst].
  destruct (match http_get (length (sent w)) DELHI_CAUSELIST_URL 10 with
            | Returned r =>
                if raises_for_status r then []
                else pdf_links_of_soup (Some court_complex) (html_parser (content r))
            | ConnectionError | Timeout => []
            end); reflexivity.
Qed.

Lemma download_all_judges_pdfs_loop (date_obj : date) (court_complex : str)
    (w : Process) :
  download_all_judges_pdfs date_obj court_complex w =
    download_loop court_complex (strftime_dmY date_obj)
      (fst (get_pdf_links_for_court_and_date date_obj (Some court_complex) w)) []
      (log_request DELHI_CAUSELIST_URL 10 w).
Proof.
  rewrite download_all_judges_pdfs_eq.
  now destruct (fst (get_pdf_links_for_court_and_date date_obj (Some court_complex) w)).
Qed.

(** X5: when Link Discovery finds nothing, the run returns the empty list,
    the page request is the only request sent and the disk is as it was. *)
Theorem download_all_nothing_found (date_obj : date) (court_complex : str)
    (w : Process) :
  fst (get_pdf_links_for_court_and_date date_obj (Some court_complex) w) = [] ->
  download_all_judges_pdfs date_obj court_complex w =
    ([], {| sent := sent w ++ [(DELHI_CAUSELIST_URL, 10%Z)]; disk := disk w |}).
Proof. intros H. rewrite download_all_judges_pdfs_eq, H. reflexivity. Qed.

Lemma download_pdf_disk_cases (pdf_url filename : str) (w : Process) :
  disk (snd (download_pdf pdf_url filename w)) = disk w
  \/ (exists r,
        http_get (length (sent w)) pdf_url 20 = Returned r
        /\ accepted r = true
        /\ open_wb (os_path_join s!"downloaded_pdfs" filename) = true
        /\ disk (snd (download_pdf pdf_url filename w)) =
           <[os_path_join s!"downloaded_pdfs" filename := content r]> (disk w))
  \/ (exists r n,
        http_get (length (sent w)) pdf_url 20 = Returned r
        /\ accepted r = true
        /\ open_wb (os_path_join s!"downloaded_pdfs" filename) = false
        /\ write_breaks (os_path_join s!"downloaded_pdfs" filename) (content r) = Some n
        /\ disk (snd (download_pdf pdf_url filename w)) =
           <[os_path_join s!"downloaded_pdfs" filename := take n (content r)]> (disk w)).
Proof.
  rewrite download_pdf_eq. cbv zeta.
  destruct (http_get (length (sent w)) pdf_url 20) as [| |r]; try (now left).
  destruct (accepted r) eqn:Ea; [|now left].
  destruct (open_wb _) eqn:Eo.
  - right. left. exists r. auto.
  - cbn [snd disk log_request]. unfold broken_write.
    destruct (write_breaks _ _) as [n|] eqn:Ew; [|now left].
    right. right. exists r, n. auto.
Qed.

Lemma download_pdf_dom (pdf_url filename : str) (w : Process) :
  dom (disk w) ⊆ dom (disk (snd (download_pdf pdf_url filename w))).
Proof.
  destruct (download_pdf_disk_cases pdf_url filename w)
    as [-> | [[r [_ [_ [_ ->]]]] | [r [n [_ [_ [_ [_ ->]]]]]]]];
    [reflexivity | |]; rewrite dom_insert_L; set_solver.
Qed.

Lemma download_loop_dom (court_complex date_str : str) (pdf_links : list PdfLink)
    (downloaded_files : list DownloadedFile) (w : Process) :
  dom (disk w) ⊆
    dom (disk (snd (download_loop court_complex date_str pdf_links
                      downloaded_files w))).
Proof.
  revert downloaded_files w.
  induction pdf_links as [|pdf_link rest IH]; intros downloaded_files w.
  - reflexivity.
  - rewrite download_loop_cons. etrans; [|apply IH]. apply download_pdf_dom.
Qed.

(** X6: a run never removes a file: every path that is on the disk before
    is on the disk afterwards. *)
Theorem download_all_keeps_files (date_obj : date) (court_complex : str)
    (w : Process) :
  dom (disk w) ⊆ dom (disk (snd (download_all_judges_pdfs date_obj court_complex w))).
Proof.
  rewrite download_all_judges_pdfs_eq.
  destruct (fst (get_pdf_links_for_court_and_date date_obj (Some court_complex) w))
    as [|pdf_link rest]; [reflexivity|].
  apply (download_loop_dom court_complex (strftime_dmY date_obj) (pdf_link :: rest) []
           (log_request DELHI_CAUSELIST_URL 10 w)).
Qed.

Lemma attempt_on_disk (court_complex date_str : str) (pdf_link : PdfLink)
    (file : DownloadedFile) (w : Process) :
  attempt court_complex date_str (length (sent w)) pdf_link = Some file ->
  df_filepath file ∈
    dom (disk (snd (download_pdf (url pdf_link)
                      (make_filename court_complex (safe_judge (judge pdf_link))
                         date_str) w))).
Proof.
  unfold attempt. rewrite download_pdf_eq. cbv zeta.
  destruct (http_get (length (sent w)) (url pdf_link) 20) as [| |r]; try discriminate.
  destruct (accepted r); [|discriminate].
  destruct (open_wb _); [|discriminate].
  intros [= <-]. cbn [andb snd disk df_filepath]. rewrite dom_insert_L. set_solver.
Qed.

Lemma download_loop_on_disk (court_complex date_str : str)
    (pdf_links : list PdfLink) (downloaded_files : list DownloadedFile)
    (w : Process) :
  Forall (fun file => df_filepath file ∈ dom (disk w)) downloaded_files ->
  Forall
    (fun file =>
       df_filepath file ∈
         dom (disk (snd (download_loop court_complex date_str pdf_links
                           downloaded_files w))))
    (fst (download_loop court_complex date_str pdf_links downloaded_files w)).
Proof.
  revert downloaded_files w.
  induction pdf_links as [|pdf_link rest IH]; intros downloaded_files w H.
  - exact H.
  - rewrite download_loop_cons. apply IH. apply List.Forall_app. split.
    + eapply List.Forall_impl; [|exact H].
      intros file Hf. cbn beta in *.
      now apply (download_pdf_dom (url pdf_link)
                   (make_filename court_complex (safe_judge (judge pdf_link)) date_str)
                   w).
    + destruct (attempt court_complex date_str (length (sent w)) pdf_link)
        as [file|] eqn:E; cbn; [|constructor].
      constructor; [|constructor]. now apply attempt_on_disk.
Qed.

Lemma download_loop_app (court_complex date_str : str)
    (before after : list PdfLink) (downloaded_files : list DownloadedFile)
    (w : Process) :
  download_loop court_complex date_str (before ++ after) downloaded_files w =
    download_loop court_complex date_str after
      (fst (download_loop court_complex date_str before downloaded_files w))
      (snd (download_loop court_complex date_str before downloaded_files w)).
Proof.
  revert downloaded_files w.
  induction before as [|pdf_link before IH]; intros downloaded_files w.
  - reflexivity.
  - cbn [app]. rewrite !download_loop_cons. apply IH.
Qed.

Lemma make_filename_inj (court_complex date_str a b : str) :
  make_filename court_complex a date_str = make_filename court_complex b date_str ->
  a = b.
Proof.
  unfold make_filename. intros H.
  apply app_inv_head in H. apply app_inv_head in H. apply app_inv_head in H.
  now apply app_inv_tail in H.
Qed.

(** The file of a link whose download went through is still whole at the
    end of the loop when no later link has the same sanitized label. *)
Lemma download_loop_keeps_body (court_complex date_str : str)
    (before after : list PdfLink) (pdf_link : PdfLink)
    (downloaded_files : list DownloadedFile) (w : Process) (r : Response) :
  http_get (length (sent w) + length before) (url pdf_link) 20 = Returned r ->
  accepted r = true ->
  open_wb (s!"downloaded_pdfs/"
           ++ make_filename court_complex (safe_judge (judge pdf_link)) date_str)
    = true ->
  (forall later, In later after ->
     safe_judge (judge later) <> safe_judge (judge pdf_link)) ->
  disk (snd (download_loop court_complex date_str (before ++ pdf_link :: after)
               downloaded_files w))
    !! (s!"downloaded_pdfs/"
        ++ make_filename court_complex (safe_judge (judge pdf_link)) date_str)
  = Some (content r).
Proof.
  intros Hget Ha Ho Hlater.
  rewrite download_loop_app, download_loop_cons.
  destruct (download_loop_spec court_complex date_str before downloaded_files w)
    as [_ Hsent].
  set (wb := snd (download_loop court_complex date_str before downloaded_files w)) in *.
  assert (Hlen : length (sent wb) = (length (sent w) + length before)%nat)
    by (rewrite Hsent, length_app, length_map; reflexivity).
  set (path := s!"downloaded_pdfs/"
               ++ make_filename court_complex (safe_judge (judge pdf_link)) date_str)
    in *.
  set (w2 := snd (download_pdf (url pdf_link)
                (make_filename court_complex (safe_judge (judge pdf_link)) date_str)
                wb)).
  assert (H2 : disk w2 !! path = Some (content r)).
  { unfold w2. rewrite download_pdf_eq. cbv zeta.
    rewrite Hlen, Hget, Ha, os_path_join_make_filename. fold path. rewrite Ho.
    cbn [snd disk]. apply lookup_insert_eq. }
  rewrite <- H2.
  match goal with
  | |- disk (snd (download_loop _ _ _ ?acc _)) !! _ = _ =>
      destruct (decide (disk (snd (download_loop court_complex date_str after acc w2))
                          !! path = disk w2 !! path)) as [E|Hne]; [exact E|]
  end.
  exfalso. apply download_loop_disk in Hne as [later [Hin Hp]].
  unfold path in Hp. apply app_inv_head in Hp. apply make_filename_inj in Hp.
  now apply (Hlater later Hin).
Qed.

(** X7: after a run, the file path of every returned record is on the
    disk; and the file of a link whose download went through holds the
    whole body of its response when no later link of the run has the same
    sanitized label. *)
Theorem downloaded_files_on_disk (date_obj : date) (court_complex : str)
    (w : Process) :
  Forall
    (fun file =>
       is_Some (disk (snd (download_all_judges_pdfs date_obj court_complex w))
                  !! df_filepath file))
    (fst (download_all_judges_pdfs date_obj court_complex w))
  /\ forall before pdf_link after r,
       fst (get_pdf_links_for_court_and_date date_obj (Some court_complex) w) =
         before ++ pdf_link :: after ->
       http_get (S (length (sent w)) + length before) (url pdf_link) 20 = Returned r ->
       accepted r = true ->
       open_wb (s!"downloaded_pdfs/"
                ++ make_filename court_complex (safe_judge (judge pdf_link))
                     (strftime_dmY date_obj)) = true ->
       (forall later, In later after ->
          safe_judge (judge later) <> safe_judge (judge pdf_link)) ->
       disk (snd (download_all_judges_pdfs date_obj court_complex w))
         !! (s!"downloaded_pdfs/"
             ++ make_filename court_complex (safe_judge (judge pdf_link))
                  (strftime_dmY date_obj))
       = Some (content r).
Proof.
  rewrite download_all_judges_pdfs_eq. split.
  - destruct (fst (get_pdf_links_for_court_and_date date_obj (Some court_complex) w))
      as [|pdf_link rest]; [constructor|].
    eapply List.Forall_impl;
      [|apply (download_loop_on_disk court_complex (strftime_dmY date_obj)
                 (pdf_link :: rest) [] (log_request DELHI_CAUSELIST_URL 10 w));
        constructor].
    intros file Hf. cbn beta in Hf. now apply elem_of_dom in Hf.
  - intros before pdf_link after r Hlinks Hget Ha Ho Hlater.
    rewrite <- download_all_judges_pdfs_eq, download_all_judges_pdfs_loop, Hlinks.
    apply download_loop_keeps_body; try assumption.
    cbn [log_request sent]. now rewrite length_app, Nat.add_1_r.
Qed.

(** X8: two links whose labels have the same sanitized form get the same
    file: when both downloads go through, the loop returns two records with
    one path, and the file there is the body of the second response. *)
Theorem same_name_last_write_wins (court_complex date_str : str)
    (first second : PdfLink) (w : Process) (r1 r2 : Response) :
  safe_judge (judge first) = safe_judge (judge second) ->
  http_get (length (sent w)) (url first) 20 = Returned r1 ->
  http_get (S (length (sent w))) (url second) 20 = Returned r2 ->
  accepted r1 = true ->
  accepted r2 = true ->
  open_wb (s!"downloaded_pdfs/"
           ++ make_filename court_complex (safe_judge (judge first)) date_str) = true ->
  map df_filepath
    (fst (download_loop court_complex date_str [first; second] [] w)) =
    [ s!"downloaded_pdfs/"
      ++ make_filename court_complex (safe_judge (judge first)) date_str;
      s!"downloaded_pdfs/"
      ++ make_filename court_complex (safe_judge (judge first)) date_str ]
  /\ disk (snd (download_loop court_complex date_str [first; second] [] w))
       !! (s!"downloaded_pdfs/"
           ++ make_filename court_complex (safe_judge (judge first)) date_str)
     = Some (content r2).
Proof.
  intros Hj H1 H2 Ha1 Ha2 Ho.
  rewrite !download_loop_cons. cbn [download_loop ret fst snd].
  rewrite download_pdf_sent, length_app, Nat.add_1_r. cbn [length].
  unfold attempt. rewrite H1, H2, <- Hj, Ha1, Ha2.
  rewrite !os_path_join_make_filename, Ho. cbn.
  split; [reflexivity|].
  rewrite (download_pdf_eq (url second)). cbv zeta.
  rewrite download_pdf_sent, length_app, Nat.add_1_r. cbn [length].
  rewrite H2, Ha2, os_path_join_make_filename, Ho. cbn [snd disk].
  apply lookup_insert_eq.
Qed.

End RunFacts.

Lemma download_all_nothing_found_witness :
  fst (get_pdf_links_for_court_and_date (ucd := ucd_ascii) (env := mock_site_empty_page)
         april_5_2025 (Some s!"Tis Hazari Court") fresh_process) = []
  /\ fst (download_all_judges_pdfs (ucd := ucd_ascii) (env := mock_site_empty_page)
            april_5_2025 s!"Tis Hazari Court" fresh_process) = [].
Proof.
  split; [reflexivity|].
  rewrite (download_all_nothing_found (ucd := ucd_ascii) (env := mock_site_empty_page)
             april_5_2025 s!"Tis Hazari Court" fresh_process eq_refl).
  reflexivity.
Defined.

Lemma same_name_last_write_wins_witness :
  safe_judge (ucd := ucd_ascii) s!"Judge A/1" = safe_judge (ucd := ucd_ascii) s!"Judge A1"
  /\ length <$>
       disk (snd (download_loop (ucd := ucd_ascii) (env := mock_site_numbered)
                    s!"Tis Hazari Court" s!"05-04-2025" twin_links [] fresh_process))
       !! s!"downloaded_pdfs/CauseList_Tis Hazari Court_Judge A1_05-04-2025.pdf"
     = Some 2001%nat.
Proof.
  split; [reflexivity|].
  pose proof (same_name_last_write_wins (ucd := ucd_ascii) (env := mock_site_numbered)
                s!"Tis Hazari Court" s!"05-04-2025"
                {| name := s!"Judge A/1"; url := s!"https://newdelhi.dcourts.gov.in/x.pdf";
                   judge := s!"Judge A/1" |}
                {| name := s!"Judge A1"; url := s!"https://newdelhi.dcourts.gov.in/y.pdf";
                   judge := s!"Judge A1" |}
                fresh_process
                {| status_code := 200; content := body_of_size 2000 |}
                {| status_code := 200; content := body_of_size 2001 |}
                eq_refl eq_refl eq_refl eq_refl eq_refl eq_refl) as [_ H].
  unfold twin_links.
  etrans; [apply (f_equal (fmap length)); exact H|].
  vm_compute. reflexivity.
Defined.

(** ** The records of a run *)

Section RecordFacts.
Context {ucd : UnicodeData} {env : Environment}.

Lemma download_all_judges_pdfs_successes (date_obj : date) (court_complex : str)
    (w : Process) :
  fst (download_all_judges_pdfs date_obj court_complex w) =
    successes court_complex (strftime_dmY date_obj) (S (length (sent w)))
      (fst (get_pdf_links_for_court_and_date date_obj (Some court_complex) w)).
Proof.
  rewrite download_all_judges_pdfs_eq.
  destruct (fst (get_pdf_links_for_court_and_date date_obj (Some court_complex) w))
    as [|pdf_link rest]; [reflexivity|].
  destruct (download_loop_spec court_complex (strftime_dmY date_obj)
              (pdf_link :: rest) [] (log_request DELHI_CAUSELIST_URL 10 w)) as [-> _].
  cbn [log_request sent app]. now rewrite length_app, Nat.add_1_r.
Qed.

Lemma successes_all (court_complex date_str : str) (n : nat)
    (pdf_links : list PdfLink) :
  (forall i pdf_link,
     pdf_links !! i = Some pdf_link ->
     is_Some (attempt court_complex date_str (n + i) pdf_link)) ->
  map df_judge (successes court_complex date_str n pdf_links) = map judge pdf_links.
Proof.
  revert n. induction pdf_links as [|pdf_link rest IH]; intros n H; [reflexivity|].
  cbn [successes map]. rewrite map_app, IH.
  - destruct (H O pdf_link eq_refl) as [file Hf]. rewrite Nat.add_0_r in Hf.
    rewrite Hf. apply attempt_Some in Hf as [Hj _].
    cbn. now rewrite Hj.
  - intros i l Hi. specialize (H (S i) l Hi). now rewrite Nat.add_succ_r in H.
Qed.

Lemma successes_nil (court_complex date_str : str) (n : nat)
    (pdf_links : list PdfLink) :
  successes court_complex date_str n pdf_links = [] <->
  forall i pdf_link,
    pdf_links !! i = Some pdf_link ->
    attempt court_complex date_str (n + i) pdf_link = None.
Proof.
  split.
  - intros H i pdf_link Hi.
    destruct (attempt court_complex date_str (n + i) pdf_link) as [file|] eqn:E;
      [|reflexivity].
    assert (Hin : In file (successes court_complex date_str n pdf_links))
      by (apply In_successes; eauto).
    rewrite H in Hin. destruct Hin.
  - intros H.
    destruct (successes court_complex date_str n pdf_links) as [|file rest] eqn:E;
      [reflexivity|].
    assert (Hin : In file (successes court_complex date_str n pdf_links))
      by (rewrite E; now left).
    apply In_successes in Hin as [i [l [Hi Ha]]]. rewrite (H i l Hi) in Ha.
    discriminate.
Qed.

(** X9: when every download of a run is accepted and written, the run
    returns one record per discovered link, with the judges in link
    order. *)
Theorem all_downloads_go_through (date_obj : date) (court_complex : str)
    (w : Process) :
  (forall i pdf_link,
     fst (get_pdf_links_for_court_and_date date_obj (Some court_complex) w) !! i
       = Some pdf_link ->
     is_Some (attempt court_complex (strftime_dmY date_obj)
                (S (length (sent w)) + i) pdf_link)) ->
  map df_judge (fst (download_all_judges_pdfs date_obj court_complex w)) =
    map judge (fst (get_pdf_links_for_court_and_date date_obj (Some court_complex) w))
  /\ length (fst (download_all_judges_pdfs date_obj court_complex w)) =
     length (fst (get_pdf_links_for_court_and_date date_obj (Some court_complex) w)).
Proof.
  intros H. rewrite download_all_judges_pdfs_successes.
  pose proof (successes_all _ _ _ _ H) as E. split; [exact E|].
  apply (f_equal (@length str)) in E. now rewrite !length_map in E.
Qed.

(** X10: the button reports that no cause lists were found exactly when no
    download of the run went through, be it that no link was discovered or
    that every download failed; otherwise it reports the number of records,
    which is not zero. *)
Theorem button_banner (selected_date : date) (selected_court : str) (w : Process) :
  (fst (on_download_button selected_date selected_court w) = NoCauseListsFound <->
   forall i pdf_link,
     fst (get_pdf_links_for_court_and_date selected_date (Some selected_court) w) !! i
       = Some pdf_link ->
     attempt selected_court (strftime_dmY selected_date)
       (S (length (sent w)) + i) pdf_link = None)
  /\ (forall n,
       fst (on_download_button selected_date selected_court w) = DownloadedCount n ->
       n <> O
       /\ n = length (fst (download_all_judges_pdfs selected_date selected_court w))).
Proof.
  unfold on_download_button, bind.
  pose proof (download_all_judges_pdfs_successes selected_date selected_court w) as E.
  destruct (download_all_judges_pdfs selected_date selected_court w)
    as [downloaded w'] eqn:Erun.
  cbn [fst] in E. rewrite <- successes_nil, <- E.
  destruct downloaded as [|file rest]; cbn [truthy ret fst]; split.
  - tauto.
  - discriminate.
  - split; discriminate.
  - intros n [= <-]. cbn [length]. split; [lia | reflexivity].
Qed.

End RecordFacts.

Lemma all_downloads_go_through_witness :
  map df_judge
    (fst (download_all_judges_pdfs (ucd := ucd_ascii) (env := mock_site)
            april_5_2025 s!"Tis Hazari Court" fresh_process)) =
    [ s!"Tis Hazari Court - Judge A/1"; s!"TIS HAZARI COURT Judge_B";
      s!"Court: tis hazari court (C)" ].
Proof.
  assert (H : forall i pdf_link,
     fst (get_pdf_links_for_court_and_date (ucd := ucd_ascii) (env := mock_site)
            april_5_2025 (Some s!"Tis Hazari Court") fresh_process) !! i
       = Some pdf_link ->
     is_Some (attempt (ucd := ucd_ascii) (env := mock_site) s!"Tis Hazari Court"
                (strftime_dmY april_5_2025)
                (S (length (sent fresh_process)) + i) pdf_link)).
  { intros [|[|[|i]]] pdf_link Hi; vm_compute in Hi; try discriminate;
      injection Hi as <-; vm_compute; eauto. }
  rewrite (proj1 (all_downloads_go_through (ucd := ucd_ascii) (env := mock_site)
                    april_5_2025 s!"Tis Hazari Court" fresh_process H)).
  reflexivity.
Defined.

(** ** The length of a file name *)

Lemma decimal_fuel_length (fuel n k : nat) :
  (n < 10 ^ k)%nat -> (1 <= k)%nat -> (length (decimal_fuel fuel n) <= k)%nat.
Proof.
  revert n k. induction fuel as [|fuel IH]; intros n k Hn Hk; cbn [decimal_fuel].
  - cbn. lia.
  - destruct (Nat.ltb_spec n 10) as [Hlt|Hge]; [cbn; lia|].
    rewrite length_app. cbn [length].
    destruct k as [|[|k]]; [lia | cbn in Hn; lia |].
    assert (Hdiv : (n / 10 < 10 ^ S k)%nat).
    { apply Nat.Div0.div_lt_upper_bound. rewrite <- Nat.pow_succ_r'. exact Hn. }
    specialize (IH (n / 10)%nat (S k) Hdiv). lia.
Qed.

Lemma decimal_fuel_nonempty (fuel n : nat) : (1 <= length (decimal_fuel (S fuel) n))%nat.
Proof.
  cbn [decimal_fuel]. destruct (n <? 10)%nat; [cbn; lia|].
  rewrite length_app. cbn. lia.
Qed.

Lemma zero_pad_length (width : nat) (s : str) :
  (length s <= width)%nat -> length (zero_pad width s) = width.
Proof.
  intros H. unfold zero_pad. rewrite length_app, length_replicate. lia.
Qed.

Lemma decimal_fuel_length_ge (fuel n k : nat) :
  (n < fuel)%nat -> (10 ^ k <= n)%nat -> (k + 1 <= length (decimal_fuel fuel n))%nat.
Proof.
  revert n k. induction fuel as [|fuel IH]; intros n k Hf Hn; [lia|].
  cbn [decimal_fuel]. destruct (Nat.ltb_spec n 10) as [Hlt|Hge].
  - destruct k as [|k]; [cbn; lia|].
    rewrite Nat.pow_succ_r' in Hn. pose proof (Nat.pow_nonzero 10 k). lia.
  - rewrite length_app. cbn [length]. destruct k as [|k]; [lia|].
    assert (Hdiv : (10 ^ k <= n / 10)%nat).
    { apply Nat.div_le_lower_bound; [lia|]. now rewrite <- Nat.pow_succ_r'. }
    assert (Hlt : (n / 10 < fuel)%nat).
    { pose proof (Nat.div_lt n 10). lia. }
    specialize (IH (n / 10)%nat k Hlt Hdiv). lia.
Qed.

Lemma strftime_dmY_length (d : date) :
  valid_date d ->
  length (strftime_dmY d) = (6 + length (decimal (year d)))%nat
  /\ (1 <= length (decimal (year d)) <= 4)%nat
  /\ ((1000 <= year d)%nat -> length (decimal (year d)) = 4%nat).
Proof.
  intros [Hm [Hd Hy]].
  assert (H4 : (length (decimal (year d)) <= 4)%nat).
  { apply decimal_fuel_length; [|lia]. change (10 ^ 4)%nat with (100 * 100)%nat. lia. }
  split; [|split].
  - unfold strftime_dmY. rewrite !length_app.
    rewrite (zero_pad_length 2), (zero_pad_length 2).
    + reflexivity.
    + apply decimal_fuel_length; [|lia]. change (10 ^ 2)%nat with 100%nat. lia.
    + apply decimal_fuel_length; [|lia]. change (10 ^ 2)%nat with 100%nat. lia.
  - split; [apply decimal_fuel_nonempty | exact H4].
  - intros H. pose proof (decimal_fuel_length_ge (S (year d)) (year d) 3) as Hge.
    unfold decimal in *. change (10 ^ 3)%nat with 1000%nat in Hge. lia.
Qed.

Section NameLength.
Context {ucd : UnicodeData}.

(** X11: for a valid date the date string has 7 to 10 characters, ten from
    the year 1000 on; the file name is 16 characters longer than the court
    complex, the sanitized label and the date string together, so at most
    66 longer than the court complex; for a court complex of the selector
    it has at most 93 characters, whatever the anchor text. *)
Theorem make_filename_length (court_complex judge_name : str) (d : date) :
  valid_date d ->
  (7 <= length (strftime_dmY d) <= 10)%nat
  /\ ((1000 <= year d)%nat -> length (strftime_dmY d) = 10%nat)
  /\ length (make_filename court_complex (safe_judge judge_name) (strftime_dmY d)) =
     (length court_complex + length (safe_judge judge_name)
      + length (strftime_dmY d) + 16)%nat
  /\ (length (make_filename court_complex (safe_judge judge_name) (strftime_dmY d))
      <= length court_complex + 66)%nat
  /\ (In court_complex DELHI_COURTS_keys ->
      (length (make_filename court_complex (safe_judge judge_name) (strftime_dmY d))
       <= 93)%nat).
Proof.
  intros Hd. destruct (strftime_dmY_length d Hd) as [Hlen [Hy H1000]].
  pose proof (safe_judge_length judge_name) as Hj.
  assert (E : length (make_filename court_complex (safe_judge judge_name)
                        (strftime_dmY d)) =
              (length court_complex + length (safe_judge judge_name)
               + length (strftime_dmY d) + 16)%nat).
  { unfold make_filename. rewrite !length_app.
    change (length s!"CauseList_") with 10%nat.
    change (length s!"_") with 1%nat.
    change (length s!".pdf") with 4%nat. lia. }
  split; [lia|]. split; [intros H; specialize (H1000 H); lia|].
  split; [exact E|]. split; [lia|].
  intros Hc.
  assert (Hk : (length court_complex <= 27)%nat).
  { cbn in Hc. destruct Hc as [<-|[<-|[<-|[<-|[<-|[]]]]]]; vm_compute; lia. }
  lia.
Qed.

End NameLength.

Lemma make_filename_length_witness :
  valid_date april_5_2025
  /\ (length (make_filename s!"Tis Hazari Court"
                (safe_judge (ucd := ucd_ascii) s!"Tis Hazari Court - Judge A/1")
                (strftime_dmY april_5_2025)) <= 93)%nat.
Proof.
  assert (H : valid_date april_5_2025) by (unfold valid_date; cbn; lia).
  split; [exact H|].
  apply (make_filename_length (ucd := ucd_ascii) s!"Tis Hazari Court"
           s!"Tis Hazari Court - Judge A/1" april_5_2025 H).
  cbn. tauto.
Defined.

(** The year 999 is written with three digits. *)
Example strftime_year_999 :
  strftime_dmY {| year := 999; month := 12; day := 31 |} = s!"31-12-999".
Proof. reflexivity. Qed.

(** ** The title of a page *)

Section CourtNameFacts.
Context {ucd : UnicodeData} {env : Environment}.
Variable find_title : bytes -> option Tag.

Lemma get_court_complex_name_eq (url : str) (w : Process) :
  get_court_complex_name_from_url find_title url w =
    (match http_get (length (sent w)) url 10 with
     | Returned r =>
         if raises_for_status r then None
         else get_text_strip <$> find_title (content r)
     | ConnectionError | Timeout => None
     end,
     log_request url 10 w).
Proof.
  unfold get_court_complex_name_from_url, bind. rewrite safe_request_eq.
  destruct (http_get (length (sent w)) url 10) as [| |r]; try reflexivity.
  unfold not_response, response_ok.
  destruct (raises_for_status r) eqn:Er; [reflexivity|]. rewrite Er. cbn [negb].
  destruct (find_title (content r)); reflexivity.
Qed.

(** X12: [get_court_complex_name_from_url] sends one request, with the
    10-second timeout, and leaves the disk alone; it returns nothing when
    the request fails with a transport error, a timeout or a 4xx or 5xx
    status, or when the page has no title; a name it returns is the text of
    the title element and has no white space at either end. *)
Theorem get_court_complex_name_from_url_spec (url : str) (w : Process) :
  snd (get_court_complex_name_from_url find_title url w) =
    {| sent := sent w ++ [(url, 10%Z)]; disk := disk w |}
  /\ (forall name,
       fst (get_court_complex_name_from_url find_title url w) = Some name ->
       strip name = name
       /\ exists r title,
            http_get (length (sent w)) url 10 = Returned r
            /\ ~ (400 <= status_code r < 600)%Z
            /\ find_title (content r) = Some title
            /\ name = get_text_strip title)
  /\ (http_get (length (sent w)) url 10 = ConnectionError
      \/ http_get (length (sent w)) url 10 = Timeout
      \/ (exists r, http_get (length (sent w)) url 10 = Returned r
            /\ ((400 <= status_code r < 600)%Z \/ find_title (content r) = None)) ->
      fst (get_court_complex_name_from_url find_title url w) = None).
Proof.
  rewrite get_court_complex_name_eq. cbn [fst snd]. split; [reflexivity | split].
  - intros name H.
    destruct (http_get (length (sent w)) url 10) as [| |r]; try discriminate.
    destruct (raises_for_status r) eqn:Er; [discriminate|].
    destruct (find_title (content r)) as [title|] eqn:Et; [|discriminate].
    injection H as <-. split.
    + apply stripped_strip_id, get_text_strip_stripped.
    + exists r, title.
      split; [reflexivity | split; [|split; [exact Et | reflexivity]]].
      unfold raises_for_status in Er. apply andb_false_iff in Er.
      destruct Er as [Er|Er]; [apply Z.leb_gt in Er | apply Z.ltb_ge in Er]; lia.
  - intros [-> | [-> | [r [-> H]]]]; try reflexivity.
    destruct (raises_for_status r) eqn:Er; [reflexivity|].
    destruct H as [H|H]; [|now rewrite H].
    unfold raises_for_status in Er. apply andb_false_iff in Er.
    destruct Er as [Er|Er]; [apply Z.leb_gt in Er | apply Z.ltb_ge in Er]; lia.
Qed.

End CourtNameFacts.

Example mock_title_name :
  fst (get_court_complex_name_from_url (ucd := ucd_ascii)
         (env := mock_site_page (mock_response 200 mock_titled_html)) mock_title
         DELHI_CAUSELIST_URL fresh_process) = Some s!"Tis Hazari Court"
  /\ fst (get_court_complex_name_from_url (ucd := ucd_ascii) (env := mock_site)
            mock_title DELHI_CAUSELIST_URL fresh_process) = None.
Proof. split; vm_compute; reflexivity. Qed.

(** ** The side panel *)



Lemma str_leb_antisym (a b : str) :
  str_leb a b = true -> str_leb b a = true -> a = b.
Proof.
  revert b. induction a as [|x a IH]; intros [|y b]; cbn [str_leb];
    try reflexivity; try discriminate.
  destruct (N.ltb_spec x y), (N.ltb_spec y x); try discriminate; try lia.
  intros H1 H2. f_equal; [lia | now apply IH].
Qed.







Example recent_files_example :
  recent_files [s!"b.pdf"; s!"a.pdf"; s!"c.pdf"; s!"B.pdf"] =
    [s!"c.pdf"; s!"b.pdf"; s!"a.pdf"; s!"B.pdf"].
Proof. reflexivity. Qed.

(** ** Writes and records *)

Section WriteFacts.
Context {ucd : UnicodeData} {env : Environment}.

Lemma download_pdf_changed (court_complex date_str : str) (pdf_link : PdfLink)
    (w : Process) (path : str) :
  disk (snd (download_pdf (url pdf_link)
               (make_filename court_complex (safe_judge (judge pdf_link)) date_str) w))
    !! path <> disk w !! path ->
  path = s!"downloaded_pdfs/"
         ++ make_filename court_complex (safe_judge (judge pdf_link)) date_str
  /\ ((exists file,
         attempt court_complex date_str (length (sent w)) pdf_link = Some file
         /\ df_filepath file = path)
      \/ (exists r n,
            http_get (length (sent w)) (url pdf_link) 20 = Returned r
            /\ accepted r = true
            /\ open_wb path = false
            /\ write_breaks path (content r) = Some n)).
Proof.
  intros H. pose proof (download_pdf_disk _ _ _ _ H) as Hp.
  rewrite os_path_join_make_filename in Hp. split; [exact Hp|].
  destruct (download_pdf_disk_cases (url pdf_link)
              (make_filename court_complex (safe_judge (judge pdf_link)) date_str) w)
    as [E | [[r [Hget [Ha [Ho _]]]] | [r [n [Hget [Ha [Ho [Hw _]]]]]]]].
  - rewrite E in H. contradiction.
  - left. unfold attempt. rewrite Hget, Ha, Ho. eexists. split; [reflexivity|].
    cbn [df_filepath]. now rewrite os_path_join_make_filename.
  - right. exists r, n. rewrite os_path_join_make_filename, <- Hp in Ho, Hw. auto.
Qed.

Lemma download_loop_changed (court_complex date_str : str)
    (pdf_links : list PdfLink) (downloaded_files : list DownloadedFile)
    (w : Process) (path : str) :
  disk (snd (download_loop court_complex date_str pdf_links downloaded_files w))
    !! path <> disk w !! path ->
  (exists file,
     In file (fst (download_loop court_complex date_str pdf_links downloaded_files w))
     /\ df_filepath file = path)
  \/ (exists i pdf_link r n,
        pdf_links !! i = Some pdf_link
        /\ path = s!"downloaded_pdfs/"
                  ++ make_filename court_complex (safe_judge (judge pdf_link)) date_str
        /\ http_get (length (sent w) + i) (url pdf_link) 20 = Returned r
        /\ accepted r = true
        /\ open_wb path = false
        /\ write_breaks path (content r) = Some n).
Proof.
  revert downloaded_files w.
  induction pdf_links as [|pdf_link rest IH]; intros downloaded_files w.
  - cbn. congruence.
  - rewrite download_loop_cons. intros H.
    pose proof (download_pdf_sent (url pdf_link)
                  (make_filename court_complex (safe_judge (judge pdf_link)) date_str)
                  w) as Hsent.
    set (w1 := snd (download_pdf (url pdf_link)
                 (make_filename court_complex (safe_judge (judge pdf_link)) date_str)
                 w)) in *.
    destruct (decide (disk w1 !! path = disk w !! path)) as [Heq|Hne].
    + rewrite <- Heq in H. apply IH in H as [H | [i [l [r [n [Hi H]]]]]];
        [now left|].
      right. exists (S i), l, r, n. split; [exact Hi|].
      rewrite Hsent, length_app, Nat.add_1_r in H.
      now rewrite Nat.add_succ_r.
    + apply download_pdf_changed in Hne as [Hp [[file [Ha Hf]] | [r [n Hb]]]].
      * left. exists file. split; [|exact Hf].
        destruct (download_loop_spec court_complex date_str rest
                    (downloaded_files
                     ++ option_list (attempt court_complex date_str (length (sent w))
                                       pdf_link)) w1) as [-> _].
        rewrite Ha. apply in_or_app. left. apply in_or_app. right. now left.
      * right. exists O, pdf_link, r, n. rewrite Nat.add_0_r.
        split; [reflexivity | split; [exact Hp | exact Hb]].
Qed.

(** X14: every write of a run is accounted for: a path whose content after
    the run differs from before is the file path of a returned record, or
    the path of a discovered link whose response was accepted and whose
    write broke after the file was opened. *)
Theorem every_write_is_accounted_for (date_obj : date) (court_complex : str)
    (w : Process) (path : str) :
  disk (snd (download_all_judges_pdfs date_obj court_complex w)) !! path
    <> disk w !! path ->
  (exists file,
     In file (fst (download_all_judges_pdfs date_obj court_complex w))
     /\ df_filepath file = path)
  \/ (exists i pdf_link r n,
        fst (get_pdf_links_for_court_and_date date_obj (Some court_complex) w) !! i
          = Some pdf_link
        /\ path = s!"downloaded_pdfs/"
                  ++ make_filename court_complex (safe_judge (judge pdf_link))
                       (strftime_dmY date_obj)
        /\ http_get (S (length (sent w)) + i) (url pdf_link) 20 = Returned r
        /\ accepted r = true
        /\ open_wb path = false
        /\ write_breaks path (content r) = Some n).
Proof.
  rewrite download_all_judges_pdfs_loop. intros H.
  apply (download_loop_changed court_complex (strftime_dmY date_obj)
           (fst (get_pdf_links_for_court_and_date date_obj (Some court_complex) w)) []
           (log_request DELHI_CAUSELIST_URL 10 w))
    in H as [H | [i [l [r [n H]]]]]; [now left|].
  right. exists i, l, r, n.
  cbn [log_request sent] in H. now rewrite length_app, Nat.add_1_r in H.
Qed.

(** X15: when the response is accepted and the write does not go through,
    [download_pdf] returns no path; the disk is untouched if [open] raised,
    and if the write broke after [n] bytes the file at the path holds the
    first [n] bytes of the body and nothing else on the disk changes. *)
Theorem download_pdf_broken_write (pdf_url filename : str) (w : Process)
    (r : Response) :
  http_get (length (sent w)) pdf_url 20 = Returned r ->
  accepted r = true ->
  open_wb (os_path_join s!"downloaded_pdfs" filename) = false ->
  fst (download_pdf pdf_url filename w) = None
  /\ (write_breaks (os_path_join s!"downloaded_pdfs" filename) (content r) = None ->
      disk (snd (download_pdf pdf_url filename w)) = disk w)
  /\ (forall n,
       write_breaks (os_path_join s!"downloaded_pdfs" filename) (content r) = Some n ->
       disk (snd (download_pdf pdf_url filename w))
         !! os_path_join s!"downloaded_pdfs" filename = Some (take n (content r))
       /\ forall path,
            path <> os_path_join s!"downloaded_pdfs" filename ->
            disk (snd (download_pdf pdf_url filename w)) !! path = disk w !! path).
Proof.
  intros Hget Ha Ho. rewrite download_pdf_eq. cbv zeta.
  rewrite Hget, Ha, Ho. cbn [fst snd disk log_request]. unfold broken_write.
  split; [reflexivity|]. split.
  - now intros ->.
  - intros n ->. split; [apply lookup_insert_eq|].
    intros path Hp. now rewrite lookup_insert_ne.
Qed.

End WriteFacts.

Lemma every_write_is_accounted_for_witness :
  (exists file,
     In file (fst (download_all_judges_pdfs (ucd := ucd_ascii) (env := mock_site)
                     april_5_2025 s!"Tis Hazari Court" fresh_process))
     /\ df_filepath file =
        s!"downloaded_pdfs/CauseList_Tis Hazari Court_TIS HAZARI COURT Judge_B_05-04-2025.pdf")
  \/ (exists i pdf_link r n,
        fst (get_pdf_links_for_court_and_date (ucd := ucd_ascii) (env := mock_site)
               april_5_2025 (Some s!"Tis Hazari Court") fresh_process) !! i
          = Some pdf_link
        /\ s!"downloaded_pdfs/CauseList_Tis Hazari Court_TIS HAZARI COURT Judge_B_05-04-2025.pdf"
           = s!"downloaded_pdfs/"
             ++ make_filename s!"Tis Hazari Court"
                  (safe_judge (ucd := ucd_ascii) (judge pdf_link))
                  (strftime_dmY april_5_2025)
        /\ http_get (Environment := mock_site) (S (length (sent fresh_process)) + i)
             (url pdf_link) 20 = Returned r
        /\ accepted r = true
        /\ open_wb (Environment := mock_site)
             s!"downloaded_pdfs/CauseList_Tis Hazari Court_TIS HAZARI COURT Judge_B_05-04-2025.pdf"
           = false
        /\ write_breaks (Environment := mock_site)
             s!"downloaded_pdfs/CauseList_Tis Hazari Court_TIS HAZARI COURT Judge_B_05-04-2025.pdf"
             (content r) = Some n).
Proof.
  apply (every_write_is_accounted_for (ucd := ucd_ascii) (env := mock_site)
           april_5_2025 s!"Tis Hazari Court" fresh_process).
  vm_compute. discriminate.
Defined.

Lemma download_pdf_broken_write_witness :
  fst (download_pdf (env := mock_site_full_disk)
         s!"https://newdelhi.dcourts.gov.in/a/one.pdf" s!"one.pdf" fresh_process) = None
  /\ disk (snd (download_pdf (env := mock_site_full_disk)
                  s!"https://newdelhi.dcourts.gov.in/a/one.pdf" s!"one.pdf"
                  fresh_process))
       !! s!"downloaded_pdfs/one.pdf" = Some (body_of_size 10).
Proof.
  destruct (download_pdf_broken_write (env := mock_site_full_disk)
              s!"https://newdelhi.dcourts.gov.in/a/one.pdf" s!"one.pdf" fresh_process
              {| status_code := 200; content := body_of_size 2048 |}
              eq_refl eq_refl eq_refl) as [H1 [_ H2]].
  split; [exact H1|].
  destruct (H2 10%nat eq_refl) as [H _].
  etrans; [exact H|]. vm_compute. reflexivity.
Defined.

(** On a full disk the mocked run returns nothing and leaves three files of
    10 bytes. *)
Example mock_run_full_disk :
  fst (download_all_judges_pdfs (ucd := ucd_ascii) (env := mock_site_full_disk)
         april_5_2025 s!"Tis Hazari Court" fresh_process) = []
  /\ map (fun path =>
            length <$>
              disk (snd (download_all_judges_pdfs (ucd := ucd_ascii)
                           (env := mock_site_full_disk)
                           april_5_2025 s!"Tis Hazari Court" fresh_process)) !! path)
       [ s!"downloaded_pdfs/CauseList_Tis Hazari Court_Tis Hazari Court - Judge A1_05-04-2025.pdf";
         s!"downloaded_pdfs/CauseList_Tis Hazari Court_TIS HAZARI COURT Judge_B_05-04-2025.pdf";
         s!"downloaded_pdfs/CauseList_Tis Hazari Court_Court tis hazari court C_05-04-2025.pdf" ]
     = [Some 10%nat; Some 10%nat; Some 10%nat].
Proof. split; vm_compute; reflexivity. Qed.

(** In the mocked run the second file holds the whole body of its
    response. *)
Lemma downloaded_files_on_disk_witness :
  length <$>
    disk (snd (download_all_judges_pdfs (ucd := ucd_ascii) (env := mock_site)
                 april_5_2025 s!"Tis Hazari Court" fresh_process))
    !! s!"downloaded_pdfs/CauseList_Tis Hazari Court_TIS HAZARI COURT Judge_B_05-04-2025.pdf"
  = Some 2048%nat.
Proof.
  pose proof (proj2 (downloaded_files_on_disk (ucd := ucd_ascii) (env := mock_site)
                       april_5_2025 s!"Tis Hazari Court" fresh_process)
                [ {| name := s!"Tis Hazari Court - Judge A/1";
                     url := s!"https://newdelhi.dcourts.gov.in/a/one.pdf";
                     judge := s!"Tis Hazari Court - Judge A/1" |} ]
                {| name := s!"TIS HAZARI COURT Judge_B";
                   url := s!"https://newdelhi.dcourts.gov.in/b/two.PDF";
                   judge := s!"TIS HAZARI COURT Judge_B" |}
                [ {| name := s!"Court: tis hazari court (C)";
                     url := s!"http://x.org/three.pdf";
                     judge := s!"Court: tis hazari court (C)" |} ]
                {| status_code := 200; content := body_of_size 2048 |}
                eq_refl eq_refl eq_refl eq_refl) as H.
  etrans; [apply (f_equal (fmap length)); apply H|].
  - intros later [<-|[]]. vm_compute. discriminate.
  - vm_compute. reflexivity.
Defined.
